(** * NER visualizer: the request handlers of [visualizer.py]

    A shallow embedding of the Flask handlers [filter_entities],
    [upload_file], [save_results] and [stats], together with the Python
    built-ins they rely on (slicing, [str.strip], [str.endswith], true
    division, [collections.Counter]), and the start page [index] with the
    label list [MODEL_ENTITIES] it shows.

    External collaborators (the spaCy pipeline [nlp], [displacy.render],
    the PDF and DOCX readers, [render_template] and the Unicode case
    mapping of [str.lower]) are section variables: the handlers are
    verified for every behaviour of these black boxes. Every call into the
    pipeline, the renderer or a reader and every file that is written is
    recorded in an explicit world state. Of python-docx the model keeps
    what [add_run] does to a text: a carriage return reads back as a
    newline, and a character lxml refuses raises [ValueError]. *)

From Stdlib Require Import ZArith QArith Lia.
From stdpp Require Import gmap list sorting strings.

Local Open Scope Z_scope.
Set Warnings "-register-all".

(** ** Python built-ins *)

Module Py.

(** A Python [str] is a sequence of Unicode code points. *)
Abbreviation char := N.
Abbreviation str := (list char).

(** String literals of the source are written [py "..."]. *)
Definition of_ascii (a : Ascii.ascii) : char := Ascii.N_of_ascii a.

Fixpoint py (s : string) : str :=
  match s with
  | EmptyString => []
  | String a s' => of_ascii a :: py s'
  end.

(** [len(s)] *)
Definition len {A} (s : list A) : Z := Z.of_nat (length s).

(** Index adjustment of a slice bound ([PySlice_AdjustIndices]): a negative
    bound counts from the end, and the result is clamped to [0..n]. *)
Definition adjust (n : nat) (i : Z) : nat :=
  if i <? 0 then Z.to_nat (Z.max 0 (i + Z.of_nat n))
  else Z.to_nat (Z.min i (Z.of_nat n)).

(** [s[a:b]] *)
Definition slice {A} (s : list A) (a b : Z) : list A :=
  let lo := adjust (length s) a in
  let hi := adjust (length s) b in
  take (hi - lo)%nat (drop lo s).

(** [s[a:]] *)
Definition slice_from {A} (s : list A) (a : Z) : list A :=
  drop (adjust (length s) a) s.

(** [c.isspace()] for one code point: the ASCII table
    [_Py_ascii_whitespace] and [_PyUnicode_IsWhitespace]. *)
Definition isspace (c : char) : bool :=
  let c := Z.of_N c in
  ((9 <=? c) && (c <=? 13)) || ((28 <=? c) && (c <=? 32))
  || (c =? 133) || (c =? 160) || (c =? 5760)
  || ((8192 <=? c) && (c <=? 8202))
  || (c =? 8232) || (c =? 8233) || (c =? 8239) || (c =? 8287)
  || (c =? 12288).

(** [s.lstrip()], [s.rstrip()] and [s.strip()] without argument. *)
Fixpoint lstrip (s : str) : str :=
  match s with
  | [] => []
  | c :: s' => if isspace c then lstrip s' else s
  end.

Definition rstrip (s : str) : str := reverse (lstrip (reverse s)).

Definition strip (s : str) : str := rstrip (lstrip s).

(** [s.endswith(suffix)] *)
Definition endswith (s suffix : str) : bool :=
  bool_decide (drop (length s - length suffix) s = suffix).

(** [sep.join(parts)] *)
Fixpoint join (sep : str) (parts : list str) : str :=
  match parts with
  | [] => []
  | [p] => p
  | p :: ps => p ++ sep ++ join sep ps
  end.

(** [sum(l)] on a list of integers. *)
Definition sum (l : list Z) : Z := foldl Z.add 0 l.

(** Python numbers as the handlers produce them. A [float] is represented
    by the rational it denotes; rounding to a double is not modelled. *)
Inductive number :=
  | Int (z : Z)
  | Float (q : Q).

(** Exceptions the handlers' own code and python-docx can raise. *)
Inductive exn :=
  | ZeroDivisionError
  | UnboundLocalError
  | ValueError.

Inductive result (A : Type) :=
  | Ok (a : A)
  | Raise (e : exn).
Arguments Ok {A} a.
Arguments Raise {A} e.

(** [a / b] on two integers: true division, raising on a zero divisor. *)
Definition truediv (a b : Z) : result number :=
  if b =? 0 then Raise ZeroDivisionError
  else Ok (Float (Qred (inject_Z a / inject_Z b))).

(** [collections.Counter(iterable)]: one increment per element. *)
Definition counter_add (m : gmap str Z) (k : str) : gmap str Z :=
  <[k := default 0 (m !! k) + 1]> m.

Definition Counter (l : list str) : gmap str Z := foldl counter_add ∅ l.

(** [d.get(k, dflt)] *)
Definition dict_get {V} (d : gmap str V) (k : str) (dflt : V) : V :=
  default dflt (d !! k).

End Py.
Import Py.

(** ** Data model *)

(** [docx.shared.RGBColor] *)
Record RGBColor := RGB { red : Z; green : Z; blue : Z }.

#[global] Instance RGBColor_eq_dec : EqDecision RGBColor.
Proof. solve_decision. Defined.

Definition COLORS : gmap str str :=
  list_to_map
    [ (py "PERSON", py "lime"); (py "LIT_WORK", py "blue");
      (py "ART_WORK", py "green"); (py "ART_MOVEMENT", py "orange");
      (py "ORG", py "purple"); (py "PLACE", py "teal");
      (py "EVENT", py "cyan"); (py "GENRE", py "pink");
      (py "CHARACTER", py "brown"); (py "QUOTE", py "gold");
      (py "AWARD", py "lime"); (py "PERIOD", py "magenta");
      (py "TECHNIQUE", py "indigo"); (py "MOVIE_TV", py "violet") ].

Definition ENTITY_COLORS : gmap str RGBColor :=
  list_to_map
    [ (py "PERSON", RGB 50 205 50); (py "LIT_WORK", RGB 0 0 255);
      (py "ART_WORK", RGB 0 128 0); (py "ART_MOVEMENT", RGB 255 165 0);
      (py "ORG", RGB 128 0 128); (py "PLACE", RGB 0 128 128);
      (py "EVENT", RGB 0 255 255); (py "GENRE", RGB 255 20 147);
      (py "CHARACTER", RGB 165 42 42); (py "QUOTE", RGB 255 215 0);
      (py "AWARD", RGB 50 205 50); (py "PERIOD", RGB 255 0 255);
      (py "TECHNIQUE", RGB 75 0 130); (py "MOVIE_TV", RGB 148 0 211) ].

(** A spaCy [Span] as the handlers read it: character offsets, label, its
    text ([ent.text]) and its number of tokens ([len(ent)]). *)
Record Span := {
  start_char : Z;
  end_char : Z;
  label_ : str;
  span_text : str;
  span_len : nat
}.

#[global] Instance Span_eq_dec : EqDecision Span.
Proof. solve_decision. Defined.

(** A spaCy [Doc]: [len(doc)], [doc.ents] and [doc.sents]. *)
Record Doc := {
  doc_len : nat;
  ents : list Span;
  sents : list Span
}.

(** The options dictionary handed to [displacy.render]. *)
Record options := {
  opt_ents : list str;
  opt_colors : gmap str str
}.

(** python-docx: a run of text with its formatting, a paragraph of runs
    and a document of paragraphs. [run_text] is what [run.text] reads;
    [bold] and the font colour are unset ([None]) on a new run. *)
Record Run := {
  run_text : str;
  bold : option bool;
  font_color_rgb : option RGBColor
}.

#[global] Instance Run_eq_dec : EqDecision Run.
Proof. solve_decision. Defined.

Abbreviation Paragraph := (list Run).
Abbreviation Document := (list Paragraph).

Abbreviation bytes := (list Byte.byte).

(** JSON values of the responses. *)
Inductive json :=
  | JBool (b : bool)
  | JNum (n : number)
  | JStr (s : str)
  | JList (l : list json)
  | JObj (fields : list (str * json)).

Fixpoint assoc (k : str) (fields : list (str * json)) : option json :=
  match fields with
  | [] => None
  | (k', v) :: rest => if bool_decide (k' = k) then Some v else assoc k rest
  end.

(** The value of key [k] in a JSON object. *)
Definition json_get (k : string) (j : json) : option json :=
  match j with
  | JObj fields => assoc (py k) fields
  | _ => None
  end.

(** A response: the JSON body and the HTTP status. *)
Definition response := (json * Z)%type.

(** The JSON body of a [/filter], [/save] or [/stats] request: the keys
    [text] and [selected_entities], each possibly absent. *)
Record body := {
  body_text : option str;
  body_selected_entities : option (list str)
}.

(** An uploaded file ([werkzeug.FileStorage]) and the multipart request
    that may carry one under the key [file]. *)
Record FileStorage := {
  filename : str;
  content : bytes
}.

Record upload_request := {
  request_file : option FileStorage
}.

(** ** Effects *)

(** What a handler does to the outside: calls into the recognition
    pipeline, the renderer and the document readers, and files saved. *)
Inductive event :=
  | EvNlp (text : str)
  | EvRender (doc : Doc) (opts : options)
  | EvFitzOpen (file_bytes : bytes)
  | EvDocxOpen (file_bytes : bytes)
  | EvSave (file_path : str) (doc : Document).

Record world := {
  files : gmap str Document;
  trace : list event
}.

(** State and exception monad of the handlers. *)
Definition M (A : Type) : Type := world -> result A * world.

Definition ret {A} (a : A) : M A := fun w => (Ok a, w).

Definition raise {A} (e : exn) : M A := fun w => (Raise e, w).

Definition bind {A B} (m : M A) (k : A -> M B) : M B :=
  fun w =>
    match m w with
    | (Ok a, w') => k a w'
    | (Raise e, w') => (Raise e, w')
    end.

Definition lift {A} (r : result A) : M A := fun w => (r, w).

Definition emit (e : event) : M unit :=
  fun w => (Ok tt, {| files := files w; trace := trace w ++ [e] |}).

Notation "'let*' x ':=' m 'in' k" := (bind m (fun x => k))
  (at level 10, x name, m at level 100, k at level 200).

(** Exceptions alone, for code that touches nothing outside. *)
Definition rbind {A B} (r : result A) (k : A -> result B) : result B :=
  match r with
  | Ok a => k a
  | Raise e => Raise e
  end.

Notation "'let+' x ':=' m 'in' k" := (rbind m (fun x => k))
  (at level 10, x name, m at level 100, k at level 200).

(** A [for] loop over [l] with loop state [a]; an exception ends it. *)
Fixpoint foldlM {A B} (f : A -> B -> result A) (a : A) (l : list B)
    : result A :=
  match l with
  | [] => Ok a
  | x :: l' => let+ a' := f a x in foldlM f a' l'
  end.

(** [doc.save(file_path)] *)
Definition doc_save (doc : Document) (file_path : str) : M unit :=
  fun w => (Ok tt, {| files := <[file_path := doc]> (files w);
                      trace := trace w ++ [EvSave file_path doc] |}).

(** ** python-docx: what a run keeps of a text *)

(** The characters lxml accepts in the text of an element: no control
    character but tab, newline and carriage return, no surrogate, and
    neither U+FFFE nor U+FFFF. *)
Definition xml_compatible (c : char) : bool :=
  let c := Z.of_N c in
  ((c =? 9) || (c =? 10) || (c =? 13) || (32 <=? c))
  && negb ((55296 <=? c) && (c <=? 57343))
  && negb ((c =? 65534) || (c =? 65535)).

(** [run.text] as it reads back once it was set to [t]: a carriage return
    is kept as a line break, like a newline, and reads back as a newline. *)
Definition stored_text (t : str) : str :=
  (fun c => if (c =? 13)%N then 10%N else c) <$> t.

(** [para.add_run(t)]: a new run at the end of the paragraph; [ValueError]
    when [t] holds a character lxml refuses. *)
Definition add_run (para : Paragraph) (t : str) : result Paragraph :=
  if forallb xml_compatible t then
    Ok (para ++ [ {| run_text := stored_text t; bold := None;
                     font_color_rgb := None |} ])
  else Raise ValueError.

(** [run.bold = True] and [run.font.color.rgb = ENTITY_COLORS.get(label,
    RGBColor(128, 128, 128))] *)
Definition set_style (label : str) (r : Run) : Run :=
  {| run_text := run_text r;
     bold := Some true;
     font_color_rgb := Some (dict_get ENTITY_COLORS label (RGB 128 128 128)) |}.

(** The same on [entity_run], the run [add_run] has just put at the end of
    the paragraph. *)
Definition style_last_run (label : str) (para : Paragraph) : Paragraph :=
  alter (set_style label) (length para - 1)%nat para.

(** ** The export segmentation of [save_results] *)

(** The run of an entity, as the paragraph holds it once [bold] and the
    font colour are set. *)
Definition entity_run (ent : Span) : Run :=
  {| run_text := stored_text (span_text ent);
     bold := Some true;
     font_color_rgb :=
       Some (dict_get ENTITY_COLORS (label_ ent) (RGB 128 128 128)) |}.

(** One iteration of the loop over [processed_doc.ents]; the loop state is
    [last_index] and the paragraph built so far. *)
Definition save_step (text : str) (selected_entities : list str)
    (st : Z * Paragraph) (ent : Span) : result (Z * Paragraph) :=
  let '(last_index, para) := st in
  if bool_decide (label_ ent ∈ selected_entities) then
    let+ para :=
      (if last_index <? start_char ent
       then add_run para (slice text last_index (start_char ent))
       else Ok para) in
    let+ para := add_run para (span_text ent) in
    Ok (end_char ent, style_last_run (label_ ent) para)
  else Ok (last_index, para).

(** The whole segmentation: the loop, then the remainder run. *)
Definition export_runs (text : str) (selected_entities : list str)
    (doc_ents : list Span) : result Paragraph :=
  let+ st := foldlM (save_step text selected_entities) (0, []) doc_ents in
  let '(last_index, para) := st in
  if last_index <? len text then add_run para (slice_from text last_index)
  else Ok para.

(** ** The handlers *)

Section Handlers.

(** The spaCy pipeline [nlp], loaded once at start-up. *)
Variable nlp : str -> Doc.

(** [displacy.render(doc, style="ent", options=options, page=False)] *)
Variable displacy_render : Doc -> options -> str.

(** [page.get_text("text")] of each page of the PDF opened by [fitz.open],
    and [para.text] of each paragraph of the DOCX opened by [Document]. *)
Variable fitz_page_texts : bytes -> list str.
Variable docx_paragraph_texts : bytes -> list str.

(** [str.lower]: the Unicode case mapping. *)
Variable lower : str -> str.

Definition call_nlp (text : str) : M Doc :=
  let* _ := emit (EvNlp text) in ret (nlp text).

Definition call_displacy_render (doc : Doc) (opts : options) : M str :=
  let* _ := emit (EvRender doc opts) in ret (displacy_render doc opts).

(** [data.get("text", "")] and [data.get("selected_entities", [])] *)
Definition get_text (data : body) : str := default [] (body_text data).

Definition get_selected_entities (data : body) : list str :=
  default [] (body_selected_entities data).

(** [{ent: COLORS.get(ent, "gray") for ent in selected_entities}] *)
Definition colors_of (selected_entities : list str) : gmap str str :=
  foldl (fun d ent => <[ent := dict_get COLORS ent (py "gray")]> d)
        ∅ selected_entities.

Definition filter_entities (data : body) : M response :=
  let selected_entities := get_selected_entities data in
  let user_text := strip (get_text data) in
  let* doc := call_nlp user_text in
  let opts := {| opt_ents := selected_entities;
                 opt_colors := colors_of selected_entities |} in
  let* html := call_displacy_render doc opts in
  ret (JObj [(py "html", JStr html)], 200).

Definition newline : str := [10%N].

Definition extract_text_from_pdf (file_bytes : bytes) : M str :=
  let* _ := emit (EvFitzOpen file_bytes) in
  ret (strip (foldl (fun text page => text ++ (page ++ newline)) []
                    (fitz_page_texts file_bytes))).

Definition extract_text_from_docx (file_bytes : bytes) : M str :=
  let* _ := emit (EvDocxOpen file_bytes) in
  ret (strip (join newline (docx_paragraph_texts file_bytes))).

Definition upload_file (request : upload_request) : M response :=
  match request_file request with
  | None => ret (JObj [(py "error", JStr (py "No file provided"))], 400)
  | Some file =>
    if bool_decide (filename file = []) then
      ret (JObj [(py "error", JStr (py "No selected file"))], 400)
    else
      let fname := lower (filename file) in
      if negb (endswith fname (py ".pdf") || endswith fname (py ".docx")) then
        ret (JObj [(py "error",
                    JStr (py "Invalid file format. Please upload a PDF or DOCX."))],
             400)
      else
        let file_bytes := content file in
        let* extracted_text :=
          (if endswith fname (py ".pdf") then extract_text_from_pdf file_bytes
           else if endswith fname (py ".docx")
                then extract_text_from_docx file_bytes
                else raise UnboundLocalError) in
        ret (JObj [(py "text", JStr extracted_text)], 200)
  end.

Definition save_results (data : body) : M response :=
  let text := strip (get_text data) in
  let selected_entities := get_selected_entities data in
  if bool_decide (text = []) then
    ret (JObj [(py "error", JStr (py "No content to save"))], 400)
  else
    let* processed_doc := call_nlp text in
    let* para :=
      lift (export_runs text selected_entities (ents processed_doc)) in
    let doc : Document := [para] in
    let file_path := py "Results.docx" in
    let* _ := doc_save doc file_path in
    ret (JObj [(py "success", JBool true); (py "file_path", JStr file_path)],
         200).

Definition json_ints (l : list Z) : json := JList (map (fun z => JNum (Int z)) l).

(** [dict(entity_counts)] as a JSON object. *)
Definition json_of_counts (m : gmap str Z) : json :=
  JObj (map (fun kv => (kv.1, JNum (Int kv.2))) (map_to_list m)).

Definition stats (data : body) : M response :=
  let text := strip (get_text data) in
  if bool_decide (text = []) then
    ret (JObj [(py "error", JStr (py "No text provided"))], 400)
  else
    let* doc := call_nlp text in
    let entity_counts := Counter (map label_ (ents doc)) in
    let total_entities := len (ents doc) in
    let token_count := Z.of_nat (doc_len doc) in
    let* entity_density :=
      (if 0 <? token_count then lift (truediv total_entities token_count)
       else ret (Int 0)) in
    let sentence_lengths := map (fun sent => Z.of_nat (span_len sent)) (sents doc) in
    let* avg_sentence_length :=
      (if bool_decide (sentence_lengths <> []) then
         lift (truediv (sum sentence_lengths) (len sentence_lengths))
       else ret (Int 0)) in
    let ne_length_distribution :=
      map (fun ent => Z.of_nat (span_len ent)) (ents doc) in
    ret (JObj [ (py "entity_count", JNum (Int total_entities));
                (py "entity_distribution", json_of_counts entity_counts);
                (py "token_count", JNum (Int token_count));
                (py "entity_density", JNum entity_density);
                (py "sentence_lengths", json_ints sentence_lengths);
                (py "avg_sentence_length", JNum avg_sentence_length);
                (py "named_entity_length_distribution",
                 json_ints ne_length_distribution) ],
         200).

End Handlers.

(** ** Vocabulary of the properties *)

(** [paragraph.text]: the texts of the runs, concatenated. *)
Definition paragraph_text (para : Paragraph) : str :=
  concat (map run_text para).

(** A span lies within the text and is not empty. *)
Definition in_bounds (text : str) (e : Span) : Prop :=
  0 <= start_char e /\ start_char e < end_char e /\ end_char e <= len text.

(** The text of a span is the text between its offsets. *)
Definition text_consistent (text : str) (e : Span) : Prop :=
  span_text e = slice text (start_char e) (end_char e).

(** Spans are ordered and do not overlap: each one ends before any later
    one starts. *)
Definition ordered (spans : list Span) : Prop :=
  StronglySorted (fun a b => end_char a <= start_char b) spans.

(** What the recognition pipeline promises of the entities of a text. *)
Definition valid_spans (text : str) (spans : list Span) : Prop :=
  Forall (in_bounds text) spans
  /\ Forall (text_consistent text) spans
  /\ ordered spans.

#[global] Instance valid_spans_dec text spans : Decision (valid_spans text spans).
Proof. unfold valid_spans, ordered, in_bounds, text_consistent. apply _. Defined.

(** A run is styled when it is bold. *)
Definition styled (r : Run) : Prop := bold r = Some true.

#[global] Instance styled_dec r : Decision (styled r).
Proof. unfold styled. apply _. Defined.

(** An entity is selected when its label is among the selected labels. *)
Definition selected (selected_entities : list str) (e : Span) : Prop :=
  label_ e ∈ selected_entities.

#[global] Instance selected_dec sel e : Decision (selected sel e).
Proof. unfold selected. apply _. Defined.

(** The runs the loop asks python-docx for, with the texts as the loop
    hands them to [add_run]: the segmentation before python-docx stores
    it. [request_step] and [requests] follow [save_step] and
    [export_runs]. *)
Definition request_run (para : Paragraph) (t : str) : Paragraph :=
  para ++ [ {| run_text := t; bold := None; font_color_rgb := None |} ].

Definition entity_request (ent : Span) : Run :=
  {| run_text := span_text ent;
     bold := Some true;
     font_color_rgb :=
       Some (dict_get ENTITY_COLORS (label_ ent) (RGB 128 128 128)) |}.

Definition request_step (text : str) (selected_entities : list str)
    (st : Z * Paragraph) (ent : Span) : Z * Paragraph :=
  let '(last_index, para) := st in
  if bool_decide (label_ ent ∈ selected_entities) then
    let para :=
      if last_index <? start_char ent
      then request_run para (slice text last_index (start_char ent))
      else para in
    (end_char ent, para ++ [entity_request ent])
  else (last_index, para).

Definition requests (text : str) (selected_entities : list str)
    (doc_ents : list Span) : Paragraph :=
  let '(last_index, para) :=
    foldl (request_step text selected_entities) (0, []) doc_ents in
  if last_index <? len text then request_run para (slice_from text last_index)
  else para.

(** A requested run as python-docx stores it, and whether it can. *)
Definition store_run (r : Run) : Run :=
  {| run_text := stored_text (run_text r);
     bold := bold r;
     font_color_rgb := font_color_rgb r |}.

Definition storable (r : Run) : Prop :=
  Forall (fun c => xml_compatible c = true) (run_text r).

#[global] Instance storable_dec r : Decision (storable r).
Proof. unfold storable. apply _. Defined.

(** The state of the export loop agrees with the text: everything before
    [last_index] has been emitted, and nothing else. *)
Definition loop_inv (text : str) (st : Z * Paragraph) : Prop :=
  0 <= st.1 /\ st.1 <= len text
  /\ paragraph_text st.2 = take (Z.to_nat st.1) text.

(** Sum of the values of a counter. *)
Definition total (m : gmap str Z) : Z :=
  map_fold (fun _ v acc => v + acc) 0 m.

(** Number of occurrences of [k] in [l]. *)
Definition occurrences (k : str) (l : list str) : nat :=
  length (filter (fun x => x = k) l).

(** A string of whitespace only. *)
Definition whitespace (s : str) : Prop := Forall (fun c => isspace c = true) s.

#[global] Instance whitespace_dec s : Decision (whitespace s).
Proof. unfold whitespace. apply _. Defined.

(** The world after more events. *)
Definition emitted (w : world) (evs : list event) : world :=
  {| files := files w; trace := trace w ++ evs |}.

(** The value of key [k] in the JSON body a handler answers with. *)
Definition field (k : string) (out : result response * world) : option json :=
  match out.1 with
  | Ok (j, _) => json_get k j
  | Raise _ => None
  end.

(** [d] is the density of [entity_count] entities over [token_count]
    tokens: the quotient, or the integer 0 when there is no token. *)
Definition is_density (entity_count token_count : Z) (d : number) : Prop :=
  (token_count = 0 -> d = Int 0)
  /\ (0 < token_count ->
      exists q, d = Float q
                /\ (q == inject_Z entity_count / inject_Z token_count)%Q).

(** The arithmetic mean of a non-empty list of integers. *)
Definition mean (l : list Z) : Q :=
  (inject_Z (foldr Z.add 0%Z l) / inject_Z (Z.of_nat (length l)))%Q.

(** [a] is the average of [l]: its mean, or the integer 0 when [l] is
    empty. *)
Definition is_average (l : list Z) (a : number) : Prop :=
  (l = [] -> a = Int 0)
  /\ (l <> [] -> exists q, a = Float q /\ (q == mean l)%Q).

(** The documents a trace saves, and the texts it hands to the pipeline. *)
Definition saves (tr : list event) : list (str * Document) :=
  flat_map (fun ev => match ev with
                      | EvSave p d => [(p, d)]
                      | _ => []
                      end) tr.

Definition nlp_calls (tr : list event) : list str :=
  flat_map (fun ev => match ev with
                      | EvNlp t => [t]
                      | _ => []
                      end) tr.

(** ** Fixtures: the scenarios of the specification *)

Definition span (a b : Z) (label t : string) (n : nat) : Span :=
  {| start_char := a; end_char := b; label_ := py label;
     span_text := py t; span_len := n |}.

Definition scenario_A_text : str := py "Dracula was written by Bram Stoker.".

Definition scenario_A_doc : Doc :=
  {| doc_len := 7;
     ents := [ span 0 7 "CHARACTER" "Dracula" 1;
               span 23 34 "PERSON" "Bram Stoker" 2 ];
     sents := [ span 0 35 "" "Dracula was written by Bram Stoker." 7 ] |}.

Definition scenario_D_text : str :=
  py "IBMSUN in LAX met with us. They were glad to come along.".

Definition scenario_D_doc : Doc :=
  {| doc_len := 12;
     ents := [ span 0 3 "ORG" "IBM" 1; span 3 6 "ORG" "SUN" 1;
               span 10 13 "PLACE" "LAX" 1 ];
     sents := [ span 0 26 "" "IBMSUN in LAX met with us." 5;
                span 27 56 "" "They were glad to come along." 7 ] |}.

(** A text with a carriage return inside, its one entity, and a text with
    a control character (U+0007) inside. *)
Definition cr_text : str := py "Dracula" ++ [13%N] ++ py "was here".

Definition cr_doc : Doc :=
  {| doc_len := 3;
     ents := [ span 0 7 "CHARACTER" "Dracula" 1 ];
     sents := [ span 0 16 "" "Dracula was here" 3 ] |}.

Definition bell_text : str := py "Dracula" ++ [7%N] ++ py "was here".

(** A pipeline that finds no token at all. *)
Definition blank_doc : Doc := {| doc_len := 0; ents := []; sents := [] |}.

Definition request_of (text : str) (labels : list string) : body :=
  {| body_text := Some text; body_selected_entities := Some (py <$> labels) |}.

Definition empty_world : world := {| files := ∅; trace := [] |}.

(** [str.lower] on ASCII letters, for file names of the fixtures. *)
Definition ascii_lower (s : str) : str :=
  (fun c => if ((65 <=? c) && (c <=? 90))%N then (c + 32)%N else c) <$> s.

Definition no_pages (_ : bytes) : list str := [].

(** An unstyled run, as [add_run] leaves it for a text without carriage
    return. *)
Definition plain (t : string) : Run :=
  {| run_text := py t; bold := None; font_color_rgb := None |}.

(** ** The start page *)

(** Lexicographic order on code points: the order of [sorted] on [str]. *)
Fixpoint str_le (a b : str) : bool :=
  match a, b with
  | [], _ => true
  | _ :: _, [] => false
  | x :: a', y :: b' =>
    if (x <? y)%N then true
    else if (y <? x)%N then false
    else str_le a' b'
  end.

Definition str_lexle (a b : str) : Prop := str_le a b = true.

#[global] Instance str_lexle_dec a b : Decision (str_lexle a b).
Proof. unfold str_lexle. apply _. Defined.

(** [sorted(l)] on a list of [str]. *)
Definition sorted (l : list str) : list str := merge_sort str_lexle l.

Section Index.

Variable nlp : str -> Doc.
Variable displacy_render : Doc -> options -> str.

(** [nlp.get_pipe("ner").labels] *)
Variable ner_labels : list str.

(** [render_template("index.html", entity_types=..., html=...)] *)
Variable render_template : list str -> str -> str.

Definition MODEL_ENTITIES : list str := sorted ner_labels.

Definition index : M str :=
  let entity_types := MODEL_ENTITIES in
  let* doc := call_nlp nlp [] in
  let opts := {| opt_ents := entity_types;
                 opt_colors := colors_of entity_types |} in
  let* html := call_displacy_render displacy_render doc opts in
  ret (render_template entity_types html).

End Index.

(** ** More vocabulary *)

(** The request [data] with its text replaced by [t]. *)
Definition with_text (data : body) (t : str) : body :=
  {| body_text := Some t;
     body_selected_entities := body_selected_entities data |}.

(** The request [data] with its selected labels replaced by [labels]. *)
Definition with_selected_entities (data : body) (labels : list str) : body :=
  {| body_text := body_text data; body_selected_entities := Some labels |}.

(** The HTTP status a handler answers with. *)
Definition status_of (out : result response * world) : option Z :=
  match out.1 with
  | Ok (_, status) => Some status
  | Raise _ => None
  end.

(** The readers a trace opens. *)
Definition reader_calls (tr : list event) : list event :=
  flat_map (fun ev => match ev with
                      | EvFitzOpen _ | EvDocxOpen _ => [ev]
                      | _ => []
                      end) tr.

(** Whatever status a handler answers with, it is 400 with an [error] key
    or 200 without one. *)
Definition well_formed_answer (out : result response * world) : Prop :=
  forall status,
    status_of out = Some status ->
    (status = 400 /\ is_Some (field "error" out))
    \/ (status = 200 /\ field "error" out = None).

(** The sum of the integer values of a JSON object. *)
Definition json_int_sum (fields : list (str * json)) : Z :=
  foldr (fun kv acc => match kv.2 with
                       | JNum (Int n) => n + acc
                       | _ => acc
                       end) 0 fields.

(** A reader that finds two pieces of text, whatever the bytes. *)
Definition two_pieces (_ : bytes) : list str :=
  [py " Dracula was written"; py "by Bram Stoker. "].

Definition report_pdf : upload_request :=
  {| request_file := Some {| filename := py "Report.PDF"; content := [] |} |}.

(** * Properties *)

(** ** Slices *)

Section Slices.
Context {A : Type}.
Implicit Types s : list A.

Lemma adjust_in_range s i :
  0 <= i <= len s -> adjust (length s) i = Z.to_nat i.
Proof.
  unfold adjust, len. intros [Hlo Hhi].
  destruct (Z.ltb_spec i 0); [lia |].
  by rewrite Z.min_l.
Qed.

Lemma slice_in_range s a b :
  0 <= a -> a <= b -> b <= len s ->
  slice s a b = take (Z.to_nat b - Z.to_nat a) (drop (Z.to_nat a) s).
Proof.
  intros Ha Hab Hb. unfold slice.
  rewrite !adjust_in_range by lia. done.
Qed.

Lemma take_slice s a b :
  0 <= a -> a <= b -> b <= len s ->
  take (Z.to_nat a) s ++ slice s a b = take (Z.to_nat b) s.
Proof.
  intros Ha Hab Hb. rewrite slice_in_range by done.
  rewrite take_take_drop. f_equal. lia.
Qed.

Lemma take_slice_from s a :
  0 <= a -> a <= len s -> take (Z.to_nat a) s ++ slice_from s a = s.
Proof.
  intros Ha Hb. unfold slice_from.
  rewrite adjust_in_range by lia. apply take_drop.
Qed.

Lemma length_slice s a b :
  0 <= a -> a <= b -> b <= len s -> len (slice s a b) = b - a.
Proof.
  intros Ha Hab Hb. rewrite slice_in_range by done.
  unfold len in *. rewrite length_take, length_drop. lia.
Qed.

Lemma length_slice_from s a :
  0 <= a -> a <= len s -> len (slice_from s a) = len s - a.
Proof.
  intros Ha Hb. unfold slice_from. rewrite adjust_in_range by lia.
  unfold len in *. rewrite length_drop. lia.
Qed.

Lemma len_pos_nonempty s : 0 < len s -> s <> [].
Proof. by destruct s. Qed.

End Slices.

(** ** The export loop: the requested runs *)

Lemma paragraph_text_app p q :
  paragraph_text (p ++ q) = paragraph_text p ++ paragraph_text q.
Proof. unfold paragraph_text. by rewrite map_app, concat_app. Qed.

Lemma paragraph_text_request_run p t :
  paragraph_text (request_run p t) = paragraph_text p ++ t.
Proof.
  unfold request_run. rewrite paragraph_text_app. unfold paragraph_text. simpl.
  by rewrite app_nil_r.
Qed.

Lemma paragraph_text_entity p e :
  paragraph_text (p ++ [entity_request e]) = paragraph_text p ++ span_text e.
Proof.
  rewrite paragraph_text_app. unfold paragraph_text. simpl.
  by rewrite app_nil_r.
Qed.

(** One iteration on a well-placed entity keeps the invariant, and moves
    [last_index] to the end of the entity when it is selected. *)
Lemma request_step_inv text sel st e :
  in_bounds text e -> text_consistent text e -> st.1 <= start_char e ->
  loop_inv text st ->
  loop_inv text (request_step text sel st e)
  /\ (request_step text sel st e).1 <= end_char e.
Proof.
  intros (Hs & Hse & He) Ht Hle (H0 & Hlen & Hpara).
  destruct st as [last para]. simpl in *. unfold request_step.
  case_bool_decide; [| split; [done | simpl; lia]].
  split; [| simpl; lia]. repeat split; simpl; [lia | lia |].
  rewrite paragraph_text_entity, Ht.
  destruct (Z.ltb_spec last (start_char e)).
  - rewrite paragraph_text_request_run, Hpara.
    rewrite take_slice by lia. apply take_slice; lia.
  - assert (last = start_char e) as -> by lia.
    rewrite Hpara. apply take_slice; lia.
Qed.

Lemma request_loop_inv text sel spans : forall st,
  Forall (in_bounds text) spans -> Forall (text_consistent text) spans ->
  ordered spans -> Forall (fun e => st.1 <= start_char e) spans ->
  loop_inv text st ->
  loop_inv text (foldl (request_step text sel) st spans).
Proof.
  induction spans as [| e spans IH]; intros st Hb Ht Ho Hst Hinv; [done |].
  simpl.
  apply Forall_cons in Hb as [Hb1 Hb], Ht as [Ht1 Ht], Hst as [Hst1 Hst].
  apply StronglySorted_inv in Ho as [Ho Hlater].
  destruct (request_step_inv text sel st e) as [Hinv' Hend]; try done.
  apply IH; try done.
  eapply Forall_impl; [exact Hlater |]. simpl. intros; lia.
Qed.

(** The whole loop, from its initial state. *)
Lemma request_loop_start text sel spans :
  valid_spans text spans ->
  loop_inv text (foldl (request_step text sel) (0, []) spans).
Proof.
  intros (Hb & Ht & Ho). apply request_loop_inv; try done.
  - eapply Forall_impl; [exact Hb |]. by intros e (? & _).
  - unfold loop_inv, len. simpl. repeat split; lia.
Qed.

(** Runs of the loop are never empty, whatever the order of the spans. *)
Lemma request_step_nonempty text sel st e :
  in_bounds text e -> text_consistent text e ->
  0 <= st.1 -> Forall (fun r => run_text r <> []) st.2 ->
  0 <= (request_step text sel st e).1
  /\ Forall (fun r => run_text r <> []) (request_step text sel st e).2.
Proof.
  intros (Hs & Hse & He) Ht H0 Hne.
  destruct st as [last para]. simpl in *. unfold request_step.
  case_bool_decide; [| done]. simpl. split; [lia |].
  apply Forall_app. split.
  - destruct (Z.ltb_spec last (start_char e)); [| done].
    unfold request_run. apply Forall_app. split; [done |].
    apply Forall_singleton. simpl. apply len_pos_nonempty.
    rewrite length_slice; lia.
  - apply Forall_singleton. simpl. rewrite Ht. apply len_pos_nonempty.
    rewrite length_slice; lia.
Qed.

Lemma request_loop_nonempty text sel spans : forall st,
  Forall (in_bounds text) spans -> Forall (text_consistent text) spans ->
  0 <= st.1 -> Forall (fun r => run_text r <> []) st.2 ->
  0 <= (foldl (request_step text sel) st spans).1
  /\ Forall (fun r => run_text r <> [])
            (foldl (request_step text sel) st spans).2.
Proof.
  induction spans as [| e spans IH]; intros st Hb Ht H0 Hne; [done |].
  apply Forall_cons in Hb as [Hb1 Hb], Ht as [Ht1 Ht]. simpl.
  destruct (request_step_nonempty text sel st e) as [H0' Hne']; try done.
  by apply IH.
Qed.

(** The styled runs of the loop are the runs of the selected entities. *)
Lemma request_step_styled text sel st e :
  filter styled (request_step text sel st e).2
  = filter styled st.2 ++ (entity_request <$> filter (selected sel) [e]).
Proof.
  destruct st as [last para]. unfold request_step.
  rewrite filter_cons, filter_nil. unfold selected at 1.
  case_bool_decide as Hsel; cbn [snd].
  - rewrite decide_True by done. rewrite filter_app.
    rewrite (filter_cons_True styled (entity_request e)) by done.
    rewrite filter_nil. f_equal.
    destruct (last <? start_char e); [| done].
    unfold request_run. rewrite filter_app.
    rewrite filter_cons_False, filter_nil by (unfold styled; simpl; done).
    by rewrite app_nil_r.
  - rewrite decide_False by done. simpl. by rewrite app_nil_r.
Qed.

Lemma request_loop_styled text sel spans : forall st,
  filter styled (foldl (request_step text sel) st spans).2
  = filter styled st.2 ++ (entity_request <$> filter (selected sel) spans).
Proof.
  induction spans as [| e spans IH]; intros st; simpl.
  - by rewrite ?filter_nil, app_nil_r.
  - rewrite IH, request_step_styled, <- app_assoc. f_equal.
    rewrite <- fmap_app, <- filter_app. done.
Qed.

(** The runs of the whole export spell the text. *)
Lemma requests_text text sel spans :
  valid_spans text spans -> paragraph_text (requests text sel spans) = text.
Proof.
  intros Hvalid. unfold requests.
  pose proof (request_loop_start text sel spans Hvalid) as Hinv.
  destruct (foldl _ _ spans) as [last para].
  destruct Hinv as (H0 & Hlen & Hpara). simpl in *.
  destruct (Z.ltb_spec last (len text)).
  - rewrite paragraph_text_request_run, Hpara. apply take_slice_from; lia.
  - rewrite Hpara. apply take_ge. unfold len in *. lia.
Qed.

(** An iteration only appends runs: at most two, and none for an entity
    that is not selected. *)
Lemma request_step_extends text sel st e :
  exists new,
    (request_step text sel st e).2 = st.2 ++ new
    /\ (length new <= 2 * length (filter (selected sel) [e]))%nat.
Proof.
  destruct st as [last para]. unfold request_step.
  rewrite filter_cons, filter_nil. unfold selected at 1.
  case_bool_decide as Hsel; cbn [snd].
  - rewrite decide_True by done.
    destruct (last <? start_char e).
    + eexists. unfold request_run. rewrite <- app_assoc. split; [done |]. simpl. lia.
    + eexists. split; [done |]. simpl. lia.
  - rewrite decide_False by done. exists []. by rewrite app_nil_r.
Qed.

Lemma request_loop_extends text sel spans : forall st,
  exists new,
    (foldl (request_step text sel) st spans).2 = st.2 ++ new
    /\ (length new <= 2 * length (filter (selected sel) spans))%nat.
Proof.
  induction spans as [| e spans IH]; intros st.
  - exists []. by rewrite app_nil_r.
  - simpl. destruct (IH (request_step text sel st e)) as (new2 & -> & Hlen2).
    destruct (request_step_extends text sel st e) as (new1 & -> & Hlen1).
    exists (new1 ++ new2). rewrite <- app_assoc. split; [done |].
    change (e :: spans) with ([e] ++ spans).
    rewrite filter_app, !length_app. lia.
Qed.

(** Entities that are not selected leave the loop state as it is. *)
Lemma request_loop_filter text sel sel' spans : forall st,
  Forall (selected sel') (filter (selected sel) spans) ->
  foldl (request_step text sel') st (filter (selected sel) spans)
  = foldl (request_step text sel) st spans.
Proof.
  induction spans as [| e spans IH]; intros st Hall; [done |].
  rewrite filter_cons in Hall |- *.
  destruct (decide (selected sel e)) as [Hsel | Hsel]; simpl.
  - apply Forall_cons in Hall as [Hsel' Hall]. rewrite IH by done.
    f_equal. destruct st as [last para]. unfold request_step.
    by rewrite !bool_decide_true.
  - rewrite IH by done. f_equal. destruct st as [last para].
    unfold request_step. by rewrite bool_decide_false.
Qed.

(** [last_index] is where the loop started or the end of some entity. *)
Lemma request_loop_last text sel spans : forall st,
  (foldl (request_step text sel) st spans).1 = st.1
  \/ exists e, e ∈ spans /\ (foldl (request_step text sel) st spans).1 = end_char e.
Proof.
  induction spans as [| e spans IH]; intros st; [by left |].
  simpl. destruct (IH (request_step text sel st e)) as [-> | (x & Hx & ->)].
  - destruct st as [last para]. unfold request_step.
    case_bool_decide; [| by left]. right. exists e. split; [left | done].
  - right. exists x. split; [by right | done].
Qed.

Lemma requests_count (text : str) (selected_entities : list str)
    (spans : list Span) :
  let chosen := length (filter (selected selected_entities) spans) in
  (chosen <= length (requests text selected_entities spans))%nat
  /\ (length (requests text selected_entities spans) <= 2 * chosen + 1)%nat.
Proof.
  intros chosen. unfold requests.
  pose proof (request_loop_styled text selected_entities spans (0, [])) as Hst.
  destruct (request_loop_extends text selected_entities spans (0, []))
    as (new & Hnew & Hlen).
  destruct (foldl _ _ spans) as [last para]. simpl in *. subst para.
  assert (chosen <= length new)%nat as Hlow.
  { unfold chosen. rewrite <- (length_fmap entity_request), <- Hst.
    apply length_filter. }
  destruct (last <? len text); [| fold chosen in Hlen; lia].
  unfold request_run. rewrite length_app. simpl. fold chosen in Hlen. lia.
Qed.

Lemma requests_refilter (text : str) (sel sel' : list str)
    (spans : list Span) :
  Forall (selected sel') (filter (selected sel) spans) ->
  requests text sel' (filter (selected sel) spans)
  = requests text sel spans.
Proof.
  intros Hall. unfold requests. by rewrite request_loop_filter.
Qed.

Lemma requests_nothing_selected (text : str) (selected_entities : list str)
    (spans : list Span) :
  Forall (fun e => label_ e ∉ selected_entities) spans ->
  requests text selected_entities spans
  = if bool_decide (text = []) then []
    else [ {| run_text := text; bold := None; font_color_rgb := None |} ].
Proof.
  intros Hnone.
  assert (filter (selected selected_entities) spans = []) as Hnil.
  { induction Hnone as [| e l Hn _ IH]; [done |].
    rewrite filter_cons_False by exact Hn. exact IH. }
  unfold requests.
  rewrite <- (request_loop_filter text selected_entities selected_entities)
    by (rewrite Hnil; constructor).
  rewrite Hnil. simpl. destruct text as [| c text]; [done |].
  rewrite bool_decide_false by done. done.
Qed.

Lemma valid_spans_app text l1 l2 :
  valid_spans text (l1 ++ l2) ->
  valid_spans text l1 /\ valid_spans text l2
  /\ (forall x y, x ∈ l1 -> y ∈ l2 -> end_char x <= start_char y).
Proof.
  intros (Hb & Ht & Ho).
  apply Forall_app in Hb as [Hb1 Hb2], Ht as [Ht1 Ht2].
  apply StronglySorted_app in Ho as (Ho1 & Ho2 & Hcross).
  by repeat split.
Qed.

(** The runs up to and including a selected entity spell the text up to the
    end of that entity. *)
Lemma request_step_selected text sel st e :
  in_bounds text e -> text_consistent text e -> st.1 <= start_char e ->
  loop_inv text st -> selected sel e ->
  exists pre,
    request_step text sel st e = (end_char e, pre ++ [entity_request e])
    /\ paragraph_text pre = take (Z.to_nat (start_char e)) text.
Proof.
  intros (Hs & Hse & He) Ht Hle (H0 & Hlen & Hpara) Hsel.
  destruct st as [last para]. simpl in *. unfold request_step.
  rewrite bool_decide_true by done.
  destruct (Z.ltb_spec last (start_char e)).
  - eexists. split; [done |].
    rewrite paragraph_text_request_run, Hpara. apply take_slice; lia.
  - assert (last = start_char e) as -> by lia. by exists para.
Qed.

Lemma requests_at_offset (text : str) (selected_entities : list str)
    (before after : list Span) (e : Span) :
  valid_spans text (before ++ e :: after) ->
  label_ e ∈ selected_entities ->
  exists pre post,
    requests text selected_entities (before ++ e :: after)
    = pre ++ entity_request e :: post
    /\ paragraph_text pre = slice text 0 (start_char e)
    /\ span_text e = slice text (start_char e) (end_char e)
    /\ paragraph_text post = slice_from text (end_char e).
Proof.
  intros Hvalid Hsel.
  pose proof (requests_text text selected_entities _ Hvalid) as Hall.
  destruct (valid_spans_app _ _ _ Hvalid) as (Hv1 & Hv2 & Hcross).
  pose proof (request_loop_start text selected_entities before Hv1) as Hinv1.
  destruct Hv2 as (Hb2 & Ht2 & Ho2).
  apply Forall_cons in Hb2 as [Hbe Hb2], Ht2 as [Hte Ht2].
  assert ((foldl (request_step text selected_entities) (0, []) before).1
          <= start_char e) as Hle.
  { destruct (request_loop_last text selected_entities before (0, []))
      as [-> | (x & Hx & ->)].
    - simpl. by destruct Hbe.
    - apply Hcross; [done | left]. }
  unfold requests in *. rewrite foldl_app in *. simpl in *.
  destruct (request_step_selected text selected_entities _ e Hbe Hte Hle Hinv1 Hsel)
    as (pre & Hstep & Hpre).
  rewrite Hstep in *.
  destruct (request_loop_extends text selected_entities after
              (end_char e, pre ++ [entity_request e])) as (new & Hnew & _).
  destruct (foldl _ (end_char e, _) after) as [last para]. simpl in Hnew.
  subst para. destruct Hbe as (Hs & Hse & He).
  assert (forall post,
            paragraph_text ((pre ++ [entity_request e]) ++ post) = text ->
            paragraph_text post = slice_from text (end_char e)) as Hpost.
  { intros post. rewrite !paragraph_text_app, Hpre.
    change (paragraph_text [entity_request e]) with (span_text e ++ []).
    rewrite app_nil_r, Hte, take_slice by lia.
    unfold slice_from. rewrite adjust_in_range by lia.
    rewrite <- (take_drop (Z.to_nat (end_char e)) text) at 2.
    by intros ?%app_inv_head. }
  assert (take (Z.to_nat (start_char e)) text = slice text 0 (start_char e))
    as Htake.
  { rewrite slice_in_range by lia. simpl. by rewrite Nat.sub_0_r. }
  destruct (last <? len text).
  - exists pre, (request_run new (slice_from text last)).
    unfold request_run in *. rewrite <- !app_assoc in *. simpl in *.
    split; [done |]. split; [congruence |]. split; [done |].
    apply Hpost. by rewrite <- !app_assoc.
  - exists pre, new. rewrite <- !app_assoc in *. simpl in *.
    split; [done |]. split; [congruence |]. split; [done |].
    apply Hpost. by rewrite <- !app_assoc.
Qed.

Lemma requests_styled text sel spans :
  filter styled (requests text sel spans)
  = entity_request <$> filter (selected sel) spans.
Proof.
  unfold requests.
  pose proof (request_loop_styled text sel spans (0, [])) as H.
  destruct (foldl _ _ spans) as [last para]. simpl in H.
  destruct (last <? len text); [| done].
  unfold request_run. rewrite filter_app, H.
  rewrite filter_cons_False, filter_nil by (unfold styled; simpl; done).
  by rewrite app_nil_r.
Qed.

Lemma requests_nonempty text sel spans :
  valid_spans text spans ->
  Forall (fun r => run_text r <> []) (requests text sel spans).
Proof.
  intros Hvalid. unfold requests.
  pose proof (request_loop_start text sel spans Hvalid) as (_ & Hlen & _).
  destruct Hvalid as (Hb & Ht & _).
  destruct (request_loop_nonempty text sel spans (0, []) Hb Ht)
    as [H0 Hne]; [done | done |].
  destruct (foldl _ _ spans) as [last para]. simpl in *.
  destruct (Z.ltb_spec last (len text)); [| done].
  unfold request_run. apply Forall_app. split; [done |].
  apply Forall_singleton. simpl. apply len_pos_nonempty.
  rewrite length_slice_from; lia.
Qed.

(** ** From the requests to the stored runs *)

Lemma forallb_xml_compatible t :
  forallb xml_compatible t = true
  <-> Forall (fun c => xml_compatible c = true) t.
Proof.
  induction t as [| c t IH]; simpl; [by split; [constructor |] |].
  rewrite andb_true_iff, Forall_cons, IH. done.
Qed.

Lemma stored_text_app s t : stored_text (s ++ t) = stored_text s ++ stored_text t.
Proof. apply fmap_app. Qed.

Lemma stored_text_nil t : stored_text t = [] <-> t = [].
Proof. unfold stored_text. by destruct t. Qed.

(** Without a carriage return, a text is stored as it is. *)
Lemma stored_text_id t : 13%N ∉ t -> stored_text t = t.
Proof.
  induction t as [| c t IH]; [done |].
  intros Hnot. apply not_elem_of_cons in Hnot as [Hc Ht].
  change (stored_text (c :: t))
    with ((if (c =? 13)%N then 10%N else c) :: stored_text t).
  rewrite IH by done. f_equal.
  destruct (N.eqb_spec c 13); [congruence | done].
Qed.

(** Storing keeps a text acceptable, and tells nothing else. *)
Lemma xml_compatible_stored t :
  Forall (fun c => xml_compatible c = true) (stored_text t)
  <-> Forall (fun c => xml_compatible c = true) t.
Proof.
  unfold stored_text. rewrite Forall_fmap. apply Forall_iff. intros c. simpl.
  destruct (N.eqb_spec c 13) as [-> |]; [done | done].
Qed.

Lemma paragraph_text_store (p : Paragraph) :
  paragraph_text (store_run <$> p) = stored_text (paragraph_text p).
Proof.
  induction p as [| r p IH]; [done |].
  change (paragraph_text (store_run <$> (r :: p)))
    with (stored_text (run_text r) ++ paragraph_text (store_run <$> p)).
  change (paragraph_text (r :: p)) with (run_text r ++ paragraph_text p).
  by rewrite stored_text_app, IH.
Qed.

Lemma storable_paragraph (p : Paragraph) :
  Forall storable p
  <-> Forall (fun c => xml_compatible c = true) (paragraph_text p).
Proof.
  unfold paragraph_text, storable. induction p as [| r p IH]; simpl.
  - split; constructor.
  - by rewrite Forall_cons, Forall_app, IH.
Qed.

Lemma filter_styled_store (p : Paragraph) :
  filter styled (store_run <$> p) = store_run <$> filter styled p.
Proof.
  induction p as [| r p IH]; [done |].
  rewrite fmap_cons, !filter_cons, IH.
  destruct (decide (styled r)) as [Hr | Hr].
  - by rewrite decide_True by exact Hr.
  - by rewrite decide_False by exact Hr.
Qed.

Lemma add_run_store (p : Paragraph) t :
  add_run (store_run <$> p) t
  = if decide (Forall (fun c => xml_compatible c = true) t)
    then Ok (store_run <$> request_run p t) else Raise ValueError.
Proof.
  unfold add_run, request_run. rewrite fmap_app.
  destruct (forallb xml_compatible t) eqn:Hall.
  - by rewrite decide_True by by apply forallb_xml_compatible.
  - rewrite decide_False; [done |].
    intros H%forallb_xml_compatible. congruence.
Qed.

Lemma style_last_run_snoc label (p : Paragraph) r :
  style_last_run label (p ++ [r]) = p ++ [set_style label r].
Proof.
  unfold style_last_run. rewrite length_app. simpl.
  replace (length p + 1 - 1)%nat with (length p + 0)%nat by lia.
  by rewrite alter_app_r.
Qed.

(** One iteration: the requested runs, stored, unless one cannot be. *)
Lemma save_step_requests text sel last p e :
  Forall storable p ->
  save_step text sel (last, store_run <$> p) e
  = if decide (Forall storable (request_step text sel (last, p) e).2)
    then Ok ((request_step text sel (last, p) e).1,
             store_run <$> (request_step text sel (last, p) e).2)
    else Raise ValueError.
Proof.
  intros Hp. unfold save_step, request_step.
  destruct (bool_decide (label_ e ∈ sel)); cbn [fst snd];
    [| by rewrite decide_True by done].
  assert (forall q, Forall storable q ->
            (let+ para := add_run (store_run <$> q) (span_text e) in
             Ok (end_char e, style_last_run (label_ e) para))
            = if decide (Forall storable (q ++ [entity_request e]))
              then Ok (end_char e, store_run <$> (q ++ [entity_request e]))
              else Raise ValueError) as Hentity.
  { intros q Hq. rewrite add_run_store.
    destruct (decide (Forall (fun c => xml_compatible c = true) (span_text e)))
      as [He | He]; cbn [rbind].
    - rewrite decide_True
        by (apply Forall_app; split; [done | apply Forall_singleton; exact He]).
      unfold request_run. rewrite !fmap_app.
      change (store_run <$> [ {| run_text := span_text e; bold := None;
                                font_color_rgb := None |} ])
        with [ {| run_text := stored_text (span_text e); bold := None;
                  font_color_rgb := None |} ].
      by rewrite style_last_run_snoc.
    - rewrite decide_False; [done |].
      intros [_ H]%Forall_app. rewrite Forall_singleton in H. exact (He H). }
  destruct (last <? start_char e); cbn [rbind]; [| by apply Hentity].
  rewrite add_run_store.
  destruct (decide (Forall (fun c => xml_compatible c = true)
                           (slice text last (start_char e)))) as [Hg | Hg];
    cbn [rbind].
  - apply Hentity. apply Forall_app.
    split; [done | apply Forall_singleton; exact Hg].
  - rewrite decide_False; [done |].
    intros [[_ H]%Forall_app _]%Forall_app. rewrite Forall_singleton in H.
    exact (Hg H).
Qed.

Lemma save_loop_requests text sel spans : forall last p,
  Forall storable p ->
  foldlM (save_step text sel) (last, store_run <$> p) spans
  = if decide (Forall storable (foldl (request_step text sel) (last, p) spans).2)
    then Ok ((foldl (request_step text sel) (last, p) spans).1,
             store_run <$> (foldl (request_step text sel) (last, p) spans).2)
    else Raise ValueError.
Proof.
  induction spans as [| e spans IH]; intros last p Hp.
  - simpl. by rewrite decide_True by done.
  - cbn [foldlM foldl]. rewrite save_step_requests by done.
    destruct (request_step text sel (last, p) e) as [last1 p1] eqn:Hstep.
    cbn [fst snd].
    destruct (decide (Forall storable p1)) as [Hp1 | Hp1]; cbn [rbind].
    + by apply IH.
    + rewrite decide_False; [done |].
      destruct (request_loop_extends text sel spans (last1, p1))
        as (new & -> & _).
      by intros [? _]%Forall_app.
Qed.

(** The export is the requested runs, stored, unless one cannot be. *)
Lemma export_runs_requests text sel spans :
  export_runs text sel spans
  = if decide (Forall storable (requests text sel spans))
    then Ok (store_run <$> requests text sel spans)
    else Raise ValueError.
Proof.
  unfold export_runs, requests.
  change (@nil Run) with (store_run <$> @nil Run) at 1.
  rewrite (save_loop_requests text sel spans 0 []) by constructor.
  destruct (foldl _ _ spans) as [last p]. cbn [fst snd].
  destruct (decide (Forall storable p)) as [Hp | Hp]; cbn [rbind].
  - destruct (last <? len text); [| by rewrite decide_True by done].
    rewrite add_run_store. unfold request_run.
    destruct (decide (Forall (fun c => xml_compatible c = true)
                             (slice_from text last))) as [Hr | Hr].
    + by rewrite decide_True
        by (apply Forall_app; split; [done | apply Forall_singleton; exact Hr]).
    + rewrite decide_False; [done |].
      intros [_ H]%Forall_app. rewrite Forall_singleton in H. exact (Hr H).
  - rewrite decide_False; [done |].
    destruct (last <? len text); [| done].
    unfold request_run. by intros [? _]%Forall_app.
Qed.

Lemma export_runs_Ok text sel spans para :
  export_runs text sel spans = Ok para ->
  para = store_run <$> requests text sel spans
  /\ Forall storable (requests text sel spans).
Proof.
  rewrite export_runs_requests. case_decide; [| done]. by intros [= <-].
Qed.

Lemma export_runs_Raise text sel spans e :
  export_runs text sel spans = Raise e ->
  e = ValueError /\ ~ Forall storable (requests text sel spans).
Proof.
  rewrite export_runs_requests. case_decide; [done |]. by intros [= <-].
Qed.

(** With valid spans every character of the text is requested, so the
    export completes exactly when the text is acceptable. *)
Lemma export_runs_valid text sel spans :
  valid_spans text spans ->
  export_runs text sel spans
  = if decide (Forall (fun c => xml_compatible c = true) text)
    then Ok (store_run <$> requests text sel spans)
    else Raise ValueError.
Proof.
  intros Hvalid. rewrite export_runs_requests.
  pose proof (storable_paragraph (requests text sel spans)) as Hst.
  rewrite requests_text in Hst by done.
  destruct (decide (Forall storable (requests text sel spans))) as [H | H].
  - by rewrite decide_True by by apply Hst.
  - rewrite decide_False; [done |]. by intros ?%Hst.
Qed.

(** ** The segmentation: the claims *)

Lemma store_entity_requests (l : list Span) :
  store_run <$> (entity_request <$> l) = entity_run <$> l.
Proof. induction l as [| e l IH]; [done |]. by rewrite !fmap_cons, IH. Qed.

(** C1 (lossless partition), as amended. For every text, every list of
    entity spans that is in bounds, ordered and free of overlaps, and every
    set of selected labels: the export completes exactly when the text
    holds no character python-docx refuses, and the texts of its runs (gap
    runs, entity runs and the final remainder), concatenated, are then the
    text with each carriage return read back as a newline; they are the
    text itself when it holds no carriage return. *)
Theorem lossless_partition (text : str) (selected_entities : list str)
    (spans : list Span) :
  valid_spans text spans ->
  (Forall (fun c => xml_compatible c = true) text
   <-> exists para, export_runs text selected_entities spans = Ok para)
  /\ forall para,
       export_runs text selected_entities spans = Ok para ->
       paragraph_text para = stored_text text
       /\ (13%N ∉ text -> paragraph_text para = text).
Proof.
  intros Hvalid. rewrite export_runs_valid by done. split.
  - split.
    + intros Hok. rewrite decide_True by done. by eexists.
    + intros [para Hpara]. by case_decide.
  - intros para. case_decide; [| done]. intros [= <-].
    rewrite paragraph_text_store, requests_text by done.
    split; [done |]. apply stored_text_id.
Qed.

Lemma lossless_partition_witness :
  valid_spans scenario_A_text (ents scenario_A_doc)
  /\ (Forall (fun c => xml_compatible c = true) scenario_A_text
      <-> exists para,
            export_runs scenario_A_text [py "PERSON"] (ents scenario_A_doc)
            = Ok para)
  /\ forall para,
       export_runs scenario_A_text [py "PERSON"] (ents scenario_A_doc)
       = Ok para ->
       paragraph_text para = stored_text scenario_A_text
       /\ (13%N ∉ scenario_A_text -> paragraph_text para = scenario_A_text).
Proof.
  assert (valid_spans scenario_A_text (ents scenario_A_doc)) as Hvalid.
  { apply (bool_decide_unpack _). vm_compute. exact I. }
  split; [exact Hvalid |].
  apply (lossless_partition scenario_A_text [py "PERSON"]
                            (ents scenario_A_doc) Hvalid).
Defined.

(** C1 as first stated fails: with a carriage return inside the text the
    runs read back a newline in its place, and with a control character
    inside it there is no run at all. *)
Lemma lossless_partition_counterexample :
  valid_spans cr_text (ents cr_doc)
  /\ (exists para,
        export_runs cr_text [py "CHARACTER"] (ents cr_doc) = Ok para
        /\ paragraph_text para <> cr_text)
  /\ valid_spans bell_text []
  /\ export_runs bell_text [py "CHARACTER"] [] = Raise ValueError.
Proof.
  split; [apply (bool_decide_unpack _); vm_compute; exact I |].
  split.
  - eexists. split; [vm_compute; reflexivity |]. vm_compute. discriminate.
  - split; [apply (bool_decide_unpack _); vm_compute; exact I |].
    vm_compute. reflexivity.
Qed.

(** C2 (filter correctness). For every entity list and every set of
    selected labels, the styled runs of a completed export are, in order,
    exactly the runs of the entities whose label is selected: each styled
    run comes from an entity with a selected label, and an entity whose
    label is not selected contributes no styled run. *)
Theorem filter_correctness (text : str) (selected_entities : list str)
    (spans : list Span) (para : Paragraph) :
  export_runs text selected_entities spans = Ok para ->
  filter styled para
  = entity_run <$> filter (selected selected_entities) spans
  /\ (forall r, r ∈ para -> styled r ->
      exists e, e ∈ spans /\ label_ e ∈ selected_entities
                /\ r = entity_run e)
  /\ (Forall (fun e => label_ e ∉ selected_entities) spans ->
      filter styled para = []).
Proof.
  intros [-> _]%export_runs_Ok.
  assert (filter styled
            (store_run <$> requests text selected_entities spans)
          = entity_run <$> filter (selected selected_entities) spans) as Heq.
  { by rewrite filter_styled_store, requests_styled, store_entity_requests. }
  split; [done |]. split.
  - intros r Hr Hs.
    assert (r ∈ filter styled
                  (store_run <$> requests text selected_entities spans))
      as Hin by (by apply list_elem_of_filter).
    rewrite Heq in Hin. apply list_elem_of_fmap in Hin as (e & -> & He).
    apply list_elem_of_filter in He as [Hsel He]. by exists e.
  - intros Hnone. rewrite Heq. clear Heq.
    induction Hnone as [| e l Hn _ IH]; [done |].
    rewrite filter_cons_False by exact Hn. exact IH.
Qed.

Lemma filter_correctness_witness :
  filter styled [ plain "Dracula was written by ";
                  entity_run (span 23 34 "PERSON" "Bram Stoker" 2);
                  plain "." ]
  = entity_run <$> filter (selected [py "PERSON"]) (ents scenario_A_doc)
  /\ (forall r,
        r ∈ [ plain "Dracula was written by ";
              entity_run (span 23 34 "PERSON" "Bram Stoker" 2);
              plain "." ] ->
        styled r ->
        exists e, e ∈ ents scenario_A_doc /\ label_ e ∈ [py "PERSON"]
                  /\ r = entity_run e)
  /\ (Forall (fun e => label_ e ∉ [py "PERSON"]) (ents scenario_A_doc) ->
      filter styled [ plain "Dracula was written by ";
                      entity_run (span 23 34 "PERSON" "Bram Stoker" 2);
                      plain "." ]
      = []).
Proof.
  apply (filter_correctness scenario_A_text [py "PERSON"]
                            (ents scenario_A_doc)).
  vm_compute. reflexivity.
Defined.

(** C3 (no empty segments). When every span satisfies
    [0 <= start_char < end_char <= len(text)] and the spans are ordered and
    free of overlaps, no run of a completed export has an empty text. *)
Theorem no_empty_segments (text : str) (selected_entities : list str)
    (spans : list Span) (para : Paragraph) :
  valid_spans text spans ->
  export_runs text selected_entities spans = Ok para ->
  Forall (fun r => run_text r <> []) para.
Proof.
  intros Hvalid [-> _]%export_runs_Ok.
  apply Forall_fmap.
  eapply Forall_impl; [by apply requests_nonempty |].
  intros r Hr. simpl. by rewrite stored_text_nil.
Qed.

Lemma no_empty_segments_witness :
  valid_spans scenario_A_text (ents scenario_A_doc)
  /\ Forall (fun r => run_text r <> [])
            [ entity_run (span 0 7 "CHARACTER" "Dracula" 1);
              plain " was written by ";
              entity_run (span 23 34 "PERSON" "Bram Stoker" 2);
              plain "." ].
Proof.
  assert (valid_spans scenario_A_text (ents scenario_A_doc)) as Hvalid.
  { apply (bool_decide_unpack _). vm_compute. exact I. }
  split; [exact Hvalid |].
  apply (no_empty_segments scenario_A_text [py "CHARACTER"; py "PERSON"]
                           (ents scenario_A_doc) _ Hvalid).
  vm_compute. reflexivity.
Defined.

(** ** Counters *)

Lemma total_insert_fresh (m : gmap str Z) k v :
  m !! k = None -> total (<[k := v]> m) = v + total m.
Proof.
  intros Hk. unfold total.
  rewrite map_fold_insert_L; [done | intros; lia | done].
Qed.

Lemma total_counter_add (m : gmap str Z) k :
  total (counter_add m k) = total m + 1.
Proof.
  unfold counter_add. destruct (m !! k) as [v |] eqn:Hk; simpl.
  - rewrite <- insert_delete_eq.
    rewrite total_insert_fresh by apply lookup_delete_eq.
    rewrite <- (insert_delete_id m k v) at 2 by done.
    rewrite total_insert_fresh by apply lookup_delete_eq. lia.
  - rewrite total_insert_fresh by done. lia.
Qed.

Lemma total_foldl_counter_add l : forall m : gmap str Z,
  total (foldl counter_add m l) = total m + len l.
Proof.
  unfold len. induction l as [| k l IH]; intros m; simpl; [lia |].
  rewrite IH, total_counter_add. lia.
Qed.

Lemma lookup_counter_add (m : gmap str Z) k j :
  counter_add m k !! j
  = if decide (k = j) then Some (default 0 (m !! j) + 1) else m !! j.
Proof.
  unfold counter_add. rewrite lookup_insert.
  case_decide; by subst.
Qed.

Lemma lookup_foldl_counter_add l k : forall m : gmap str Z,
  foldl counter_add m l !! k
  = if decide (occurrences k l = 0%nat) then m !! k
    else Some (default 0 (m !! k) + Z.of_nat (occurrences k l)).
Proof.
  unfold occurrences.
  induction l as [| x l IH]; intros m; simpl; [done |].
  rewrite IH, lookup_counter_add, filter_cons.
  destruct (decide (x = k)) as [-> |]; simpl; [| done].
  case_decide as Hn.
  - rewrite Hn. simpl. f_equal.
  - f_equal. lia.
Qed.

Lemma lookup_Counter l k :
  Counter l !! k
  = if decide (occurrences k l = 0%nat) then None
    else Some (Z.of_nat (occurrences k l)).
Proof.
  unfold Counter. rewrite lookup_foldl_counter_add, lookup_empty.
  case_decide; [done |]. simpl. f_equal.
Qed.

Lemma occurrences_pos k l : (0 < occurrences k l)%nat <-> k ∈ l.
Proof.
  unfold occurrences. induction l as [| x l IH].
  - rewrite filter_nil. simpl. split; [lia | by intros ?%not_elem_of_nil].
  - rewrite filter_cons, elem_of_cons.
    destruct (decide (x = k)) as [-> |]; simpl; [split; [auto | lia] |].
    rewrite IH. split; [auto | intros [? | ?]; [congruence | done]].
Qed.

(** ** Running the handlers *)

Lemma foldl_add l : forall a, foldl Z.add a l = a + foldr Z.add 0 l.
Proof.
  induction l as [| x l IH]; intros a; simpl; [lia |].
  rewrite IH. lia.
Qed.

Lemma sum_foldr l : sum l = foldr Z.add 0 l.
Proof. unfold sum. rewrite foldl_add. lia. Qed.

Lemma truediv_nonzero a b :
  b <> 0 -> truediv a b = Ok (Float (Qred (inject_Z a / inject_Z b))).
Proof. intros Hb. unfold truediv. by rewrite (proj2 (Z.eqb_neq b 0)). Qed.

(** What [stats] answers on a request whose stripped text is not empty:
    one call of the pipeline, no exception, and the seven fields. *)
Lemma stats_run nlp (data : body) (w : world) :
  let text := strip (get_text data) in
  let doc := nlp text in
  let sentence_lengths :=
    map (fun sent => Z.of_nat (span_len sent)) (sents doc) in
  text <> [] ->
  exists d a,
    is_density (len (ents doc)) (Z.of_nat (doc_len doc)) d
    /\ is_average sentence_lengths a
    /\ stats nlp data w
       = (Ok (JObj [ (py "entity_count", JNum (Int (len (ents doc))));
                     (py "entity_distribution",
                      json_of_counts (Counter (map label_ (ents doc))));
                     (py "token_count", JNum (Int (Z.of_nat (doc_len doc))));
                     (py "entity_density", JNum d);
                     (py "sentence_lengths", json_ints sentence_lengths);
                     (py "avg_sentence_length", JNum a);
                     (py "named_entity_length_distribution",
                      json_ints (map (fun ent => Z.of_nat (span_len ent))
                                     (ents doc))) ],
              200),
          emitted w [EvNlp text]).
Proof.
  intros text doc sentence_lengths Htext.
  unfold stats. fold text. rewrite bool_decide_false by done.
  unfold bind at 1. unfold call_nlp, bind at 1, emit, ret at 1.
  fold text doc sentence_lengths. cbn [fst snd].
  set (tc := Z.of_nat (doc_len doc)). set (ec := len (ents doc)).
  assert (exists d, is_density ec tc d
                    /\ (if 0 <? tc then lift (truediv ec tc)
                        else ret (Int 0)) = ret d) as (d & Hd & ->).
  { destruct (Z.ltb_spec 0 tc).
    - eexists. split; [| rewrite truediv_nonzero by lia; reflexivity].
      split; [lia |]. intros _. eexists. split; [done |]. apply Qred_correct.
    - exists (Int 0). split; [| done]. split; [done | lia]. }
  assert (exists a, is_average sentence_lengths a
                    /\ (if bool_decide (sentence_lengths <> [])
                        then lift (truediv (sum sentence_lengths)
                                           (len sentence_lengths))
                        else ret (Int 0)) = ret a) as (a & Ha & ->).
  { case_bool_decide as Hs.
    - eexists. split.
      2:{ rewrite truediv_nonzero; [reflexivity |].
          unfold len. destruct sentence_lengths; [done | simpl; lia]. }
      split; [done |]. intros _. eexists. split; [done |].
      rewrite Qred_correct, sum_foldr. reflexivity.
    - exists (Int 0). split; [| done]. split; [done |]. intros ?. tauto. }
  exists d, a. done.
Qed.

(** What [stats] and [save_results] answer when the stripped text is
    empty: the error, and nothing is done. *)
Lemma stats_rejects nlp (data : body) (w : world) :
  strip (get_text data) = [] ->
  stats nlp data w
  = (Ok (JObj [(py "error", JStr (py "No text provided"))], 400), w).
Proof. intros H. unfold stats. by rewrite bool_decide_true. Qed.

Lemma save_results_rejects nlp (data : body) (w : world) :
  strip (get_text data) = [] ->
  save_results nlp data w
  = (Ok (JObj [(py "error", JStr (py "No content to save"))], 400), w).
Proof. intros H. unfold save_results. by rewrite bool_decide_true. Qed.

Lemma stats_total nlp (data : body) (w : world) :
  exists r, (stats nlp data w).1 = Ok r.
Proof.
  destruct (decide (strip (get_text data) = [])) as [He | Hne].
  - rewrite stats_rejects by done. by eexists.
  - destruct (stats_run nlp data w Hne) as (d & a & _ & _ & ->). by eexists.
Qed.

(** What [save_results] does on a request whose stripped text is not
    empty: one call of the pipeline, then one document saved, unless
    python-docx refuses a run. *)
Lemma save_results_run nlp (data : body) (w : world) (para : Paragraph) :
  let text := strip (get_text data) in
  text <> [] ->
  export_runs text (get_selected_entities data) (ents (nlp text)) = Ok para ->
  save_results nlp data w
  = (Ok (JObj [ (py "success", JBool true);
                (py "file_path", JStr (py "Results.docx")) ], 200),
     {| files := <[py "Results.docx" := [para]]> (files w);
        trace := (trace w ++ [EvNlp text])
                 ++ [EvSave (py "Results.docx") [para]] |}).
Proof.
  intros text Htext Hpara. unfold save_results. fold text.
  rewrite bool_decide_false by done.
  unfold bind at 1. unfold call_nlp, bind at 1, emit, ret at 1.
  unfold bind at 1. unfold lift. by rewrite Hpara.
Qed.

Lemma save_results_fails nlp (data : body) (w : world) (e : exn) :
  let text := strip (get_text data) in
  text <> [] ->
  export_runs text (get_selected_entities data) (ents (nlp text)) = Raise e ->
  save_results nlp data w = (Raise e, emitted w [EvNlp text]).
Proof.
  intros text Htext Hpara. unfold save_results. fold text.
  rewrite bool_decide_false by done.
  unfold bind at 1. unfold call_nlp, bind at 1, emit, ret at 1.
  unfold bind at 1. unfold lift. by rewrite Hpara.
Qed.

(** Every run of [save_results]. *)
Lemma save_results_cases nlp (data : body) (w : world) :
  let text := strip (get_text data) in
  let runs := export_runs text (get_selected_entities data) (ents (nlp text)) in
  (text = []
   /\ save_results nlp data w
      = (Ok (JObj [(py "error", JStr (py "No content to save"))], 400), w))
  \/ (text <> []
      /\ exists para,
          runs = Ok para
          /\ save_results nlp data w
             = (Ok (JObj [ (py "success", JBool true);
                           (py "file_path", JStr (py "Results.docx")) ], 200),
                {| files := <[py "Results.docx" := [para]]> (files w);
                   trace := (trace w ++ [EvNlp text])
                            ++ [EvSave (py "Results.docx") [para]] |}))
  \/ (text <> []
      /\ exists e,
          runs = Raise e
          /\ save_results nlp data w = (Raise e, emitted w [EvNlp text])).
Proof.
  intros text runs.
  destruct (decide (text = [])) as [He | Hne].
  { left. split; [done |]. by apply save_results_rejects. }
  right. destruct runs as [para | e] eqn:Hruns.
  - left. split; [done |]. exists para. split; [done |].
    by apply save_results_run.
  - right. split; [done |]. exists e. split; [done |].
    by apply save_results_fails.
Qed.

Lemma filter_entities_run nlp render (data : body) (w : world) :
  let text := strip (get_text data) in
  let opts := {| opt_ents := get_selected_entities data;
                 opt_colors := colors_of (get_selected_entities data) |} in
  filter_entities nlp render data w
  = (Ok (JObj [(py "html", JStr (render (nlp text) opts))], 200),
     {| files := files w;
        trace := (trace w ++ [EvNlp text]) ++ [EvRender (nlp text) opts] |}).
Proof. done. Qed.

(** ** [str.strip] *)

Lemma lstrip_split s :
  exists pre, s = pre ++ lstrip s /\ whitespace pre.
Proof.
  induction s as [| c s (pre & Hs & Hpre)]; simpl.
  - exists []. split; [done | constructor].
  - destruct (isspace c) eqn:Hc.
    + exists (c :: pre). split; [by rewrite <- app_comm_cons, <- Hs |].
      by constructor.
    + exists []. split; [done | constructor].
Qed.

Lemma lstrip_head s c : head (lstrip s) = Some c -> isspace c = false.
Proof.
  induction s as [| x s IH]; simpl; [done |].
  destruct (isspace x) eqn:Hx; [done |]. simpl. congruence.
Qed.

Lemma lstrip_whitespace s : whitespace s -> lstrip s = [].
Proof. induction 1 as [| c s Hc _ IH]; simpl; [done |]. by rewrite Hc. Qed.

Lemma lstrip_nil_whitespace s : lstrip s = [] -> whitespace s.
Proof.
  intros H. destruct (lstrip_split s) as (pre & Hs & Hpre).
  rewrite H, app_nil_r in Hs. by subst.
Qed.

Lemma strip_split s :
  exists pre post,
    s = pre ++ strip s ++ post /\ whitespace pre /\ whitespace post.
Proof.
  destruct (lstrip_split s) as (pre & Hs & Hpre).
  destruct (lstrip_split (reverse (lstrip s))) as (post & Hr & Hpost).
  exists pre, (reverse post). repeat split; [| done | by apply Forall_reverse].
  unfold strip, rstrip. rewrite <- reverse_app, <- Hr, reverse_involutive.
  exact Hs.
Qed.

Lemma strip_last s c : last (strip s) = Some c -> isspace c = false.
Proof.
  unfold strip, rstrip. rewrite last_reverse. apply lstrip_head.
Qed.

Lemma strip_head s c : head (strip s) = Some c -> isspace c = false.
Proof.
  intros Hc. apply (lstrip_head s).
  destruct (lstrip_split (reverse (lstrip s))) as (post & Hr & _).
  apply (f_equal reverse) in Hr.
  rewrite reverse_involutive, reverse_app in Hr. fold (rstrip (lstrip s)) in Hr.
  fold (strip s) in Hr. rewrite Hr. apply head_app_Some. by left.
Qed.

Lemma strip_whitespace s : whitespace s <-> strip s = [].
Proof.
  split.
  - intros Hs. unfold strip. by rewrite lstrip_whitespace.
  - intros Hn. destruct (strip_split s) as (pre & post & Hs & Hpre & Hpost).
    rewrite Hn in Hs. subst s. by apply Forall_app.
Qed.

(** ** The statistics: the claims *)

(** C4 (density zero-guard). [stats] never raises a division error; on a
    request it accepts, [entity_density] is the quotient of the entity
    count by the token count when there is a token, and the integer 0
    when there is none. *)
Theorem density_zero_guard nlp (data : body) (w : world) :
  let doc := nlp (strip (get_text data)) in
  (stats nlp data w).1 <> Raise ZeroDivisionError
  /\ (strip (get_text data) <> [] ->
      exists d,
        field "entity_density" (stats nlp data w) = Some (JNum d)
        /\ is_density (len (ents doc)) (Z.of_nat (doc_len doc)) d).
Proof.
  intros doc. split.
  - destruct (stats_total nlp data w) as [r ->]. done.
  - intros Htext.
    destruct (stats_run nlp data w Htext) as (d & a & Hd & _ & ->).
    by exists d.
Qed.

Lemma density_zero_guard_witness :
  exists d,
    field "entity_density"
          (stats (fun _ => scenario_D_doc) (request_of scenario_D_text []) empty_world)
    = Some (JNum d)
    /\ is_density 3 12 d.
Proof.
  apply (proj2 (density_zero_guard (fun _ => scenario_D_doc)
                                   (request_of scenario_D_text []) empty_world)).
  vm_compute. discriminate.
Defined.

(** C5 (average zero-guard). [stats] never raises a division error; on a
    request it accepts, [avg_sentence_length] is the arithmetic mean of
    [sentence_lengths] when there is a sentence, and the integer 0 when
    there is none. *)
Theorem average_zero_guard nlp (data : body) (w : world) :
  let doc := nlp (strip (get_text data)) in
  let sentence_lengths :=
    map (fun sent => Z.of_nat (span_len sent)) (sents doc) in
  (forall e, (stats nlp data w).1 <> Raise e)
  /\ (strip (get_text data) <> [] ->
      exists a,
        field "sentence_lengths" (stats nlp data w)
        = Some (json_ints sentence_lengths)
        /\ field "avg_sentence_length" (stats nlp data w) = Some (JNum a)
        /\ is_average sentence_lengths a).
Proof.
  intros doc sentence_lengths. split.
  - intros e. destruct (stats_total nlp data w) as [r ->]. done.
  - intros Htext.
    destruct (stats_run nlp data w Htext) as (d & a & _ & Ha & ->).
    by exists a.
Qed.

Lemma average_zero_guard_witness :
  exists a,
    field "sentence_lengths"
          (stats (fun _ => scenario_D_doc) (request_of scenario_D_text []) empty_world)
    = Some (json_ints [5; 7])
    /\ field "avg_sentence_length"
             (stats (fun _ => scenario_D_doc) (request_of scenario_D_text [])
                    empty_world)
       = Some (JNum a)
    /\ is_average [5; 7] a.
Proof.
  apply (proj2 (average_zero_guard (fun _ => scenario_D_doc)
                                   (request_of scenario_D_text []) empty_world)).
  vm_compute. discriminate.
Defined.

(** C6 (distribution completeness). On a request [stats] accepts, the
    counts of [entity_distribution] add up to [entity_count], and a label
    is a key of [entity_distribution] exactly when some entity carries it;
    its count is then the number of these entities, never zero. *)
Theorem distribution_completeness nlp (data : body) (w : world) :
  let doc := nlp (strip (get_text data)) in
  let entity_distribution := Counter (map label_ (ents doc)) in
  strip (get_text data) <> [] ->
  field "entity_count" (stats nlp data w) = Some (JNum (Int (len (ents doc))))
  /\ field "entity_distribution" (stats nlp data w)
     = Some (json_of_counts entity_distribution)
  /\ total entity_distribution = len (ents doc)
  /\ (forall l, is_Some (entity_distribution !! l)
                <-> exists e, e ∈ ents doc /\ label_ e = l)
  /\ (forall l n, entity_distribution !! l = Some n ->
                  0 < n /\ n = Z.of_nat (occurrences l (map label_ (ents doc)))).
Proof.
  intros doc entity_distribution Htext.
  destruct (stats_run nlp data w Htext) as (d & a & _ & _ & ->).
  fold doc. split; [done |]. split; [done |]. split; [| split].
  - unfold entity_distribution, Counter.
    rewrite total_foldl_counter_add. unfold total, len.
    rewrite map_fold_empty, length_map. lia.
  - intros l. unfold entity_distribution. rewrite lookup_Counter.
    pose proof (occurrences_pos l (map label_ (ents doc))) as Hpos.
    rewrite list_elem_of_fmap in Hpos.
    case_decide as Hn.
    + split; [by intros [? ?] |]. intros (e & He & Hl).
      assert (0 < occurrences l (map label_ (ents doc)))%nat; [| lia].
      apply Hpos. by exists e.
    + split; [| by eexists]. intros _.
      destruct (proj1 Hpos) as (e & -> & He); [lia |]. by exists e.
  - intros l n. unfold entity_distribution. rewrite lookup_Counter.
    case_decide; [done |]. intros [= <-]. split; lia.
Qed.

Lemma distribution_completeness_witness :
  let stats_D :=
    stats (fun _ => scenario_D_doc) (request_of scenario_D_text []) empty_world in
  let entity_distribution := Counter [py "ORG"; py "ORG"; py "PLACE"] in
  field "entity_count" stats_D = Some (JNum (Int 3))
  /\ field "entity_distribution" stats_D
     = Some (json_of_counts entity_distribution)
  /\ total entity_distribution = 3
  /\ (forall l, is_Some (entity_distribution !! l)
                <-> exists e, e ∈ ents scenario_D_doc /\ label_ e = l)
  /\ (forall l n, entity_distribution !! l = Some n ->
                  0 < n
                  /\ n = Z.of_nat (occurrences l [py "ORG"; py "ORG"; py "PLACE"])).
Proof.
  apply (distribution_completeness (fun _ => scenario_D_doc)
                                   (request_of scenario_D_text []) empty_world).
  vm_compute. discriminate.
Defined.

(** ** Rejections and effects: the claims *)

(** C7 (empty-input rejection). On a request whose text is empty,
    [save_results] and [stats] answer with the error object alone and a
    client-error status, and leave the world as it was: the pipeline is
    not called and no document is saved. *)
Theorem empty_input_rejection nlp (data : body) (w : world) :
  get_text data = [] ->
  save_results nlp data w
  = (Ok (JObj [(py "error", JStr (py "No content to save"))], 400), w)
  /\ stats nlp data w
     = (Ok (JObj [(py "error", JStr (py "No text provided"))], 400), w).
Proof.
  intros Hempty. split.
  - apply save_results_rejects. by rewrite Hempty.
  - apply stats_rejects. by rewrite Hempty.
Qed.

Lemma empty_input_rejection_witness :
  save_results (fun _ => scenario_A_doc) (request_of [] ["PERSON"]) empty_world
  = (Ok (JObj [(py "error", JStr (py "No content to save"))], 400), empty_world)
  /\ stats (fun _ => scenario_A_doc) (request_of [] ["PERSON"]) empty_world
     = (Ok (JObj [(py "error", JStr (py "No text provided"))], 400), empty_world).
Proof.
  apply (empty_input_rejection (fun _ => scenario_A_doc)
                               (request_of [] ["PERSON"]) empty_world).
  reflexivity.
Defined.

(** C8 (unsupported-format rejection). For an uploaded file whose
    lowercased name ends neither in [.pdf] nor in [.docx], [upload_file]
    answers with an error object and status 400 and leaves the world as it
    was: neither extraction function is called. *)
Theorem unsupported_format_rejection fitz_page_texts docx_paragraph_texts
    lower (request : upload_request) (file : FileStorage) (w : world) :
  request_file request = Some file ->
  endswith (lower (filename file)) (py ".pdf") = false ->
  endswith (lower (filename file)) (py ".docx") = false ->
  exists msg,
    upload_file fitz_page_texts docx_paragraph_texts lower request w
    = (Ok (JObj [(py "error", JStr msg)], 400), w).
Proof.
  intros Hfile Hpdf Hdocx. unfold upload_file. rewrite Hfile.
  case_bool_decide; [by eexists |].
  rewrite Hpdf, Hdocx. by eexists.
Qed.

Lemma unsupported_format_rejection_witness :
  exists msg,
    upload_file no_pages no_pages ascii_lower
      {| request_file := Some {| filename := py "report.txt";
                                 content := [] |} |} empty_world
    = (Ok (JObj [(py "error", JStr msg)], 400), empty_world).
Proof.
  apply (unsupported_format_rejection no_pages no_pages ascii_lower _
           {| filename := py "report.txt"; content := [] |} empty_world);
    reflexivity.
Defined.



(** C10 (input stripping), as amended. The text [filter_entities],
    [save_results] and [stats] work on is the submitted text without its
    leading and trailing whitespace, and it is this text the pipeline
    receives. A text of whitespace only is treated as the empty text:
    [save_results] and [stats] reject it. Otherwise, when the export
    completes, the document saved holds its runs, which for valid spans
    spell the stripped text with each carriage return read back as a
    newline, and the stripped text itself when it holds no carriage
    return; when python-docx refuses a run, [save_results] fails after the
    call of the pipeline and saves nothing. *)
Theorem input_stripping nlp render (data : body) (w : world) :
  let raw := get_text data in
  let text := strip raw in
  let blank := {| body_text := Some [];
                  body_selected_entities := body_selected_entities data |} in
  let runs := export_runs text (get_selected_entities data) (ents (nlp text)) in
  (exists pre post,
      raw = pre ++ text ++ post /\ whitespace pre /\ whitespace post)
  /\ (forall c, head text = Some c \/ last text = Some c -> isspace c = false)
  /\ nlp_calls (trace (filter_entities nlp render data w).2)
     = nlp_calls (trace w) ++ [text]
  /\ (whitespace raw ->
      filter_entities nlp render data w = filter_entities nlp render blank w
      /\ save_results nlp data w = save_results nlp blank w
      /\ stats nlp data w = stats nlp blank w
      /\ save_results nlp data w
         = (Ok (JObj [(py "error", JStr (py "No content to save"))], 400), w)
      /\ stats nlp data w
         = (Ok (JObj [(py "error", JStr (py "No text provided"))], 400), w))
  /\ (~ whitespace raw ->
      nlp_calls (trace (stats nlp data w).2) = nlp_calls (trace w) ++ [text]
      /\ nlp_calls (trace (save_results nlp data w).2)
         = nlp_calls (trace w) ++ [text]
      /\ (forall para,
            runs = Ok para ->
            files (save_results nlp data w).2 !! py "Results.docx"
            = Some [para]
            /\ (valid_spans text (ents (nlp text)) ->
                paragraph_text para = stored_text text
                /\ (13%N ∉ text -> paragraph_text para = text)))
      /\ (forall e,
            runs = Raise e ->
            save_results nlp data w = (Raise e, emitted w [EvNlp text]))).
Proof.
  intros raw text blank runs.
  split; [apply strip_split |].
  split; [intros c [Hc | Hc]; [by apply (strip_head raw) | by apply (strip_last raw)] |].
  split.
  { rewrite filter_entities_run. simpl. unfold nlp_calls.
    rewrite !flat_map_app. simpl. by rewrite app_nil_r. }
  split.
  - intros Hws. apply strip_whitespace in Hws. split.
    { rewrite !filter_entities_run. fold raw text. unfold text.
      by rewrite Hws. }
    rewrite (save_results_rejects nlp data), (stats_rejects nlp data) by done.
    rewrite (save_results_rejects nlp blank), (stats_rejects nlp blank) by done.
    done.
  - intros Hws.
    assert (text <> []) as Htext by (by intros ?%strip_whitespace).
    destruct (stats_run nlp data w Htext) as (d & a & _ & _ & ->).
    split; [| split; [| split]].
    + cbn [snd trace emitted]. unfold nlp_calls. by rewrite !flat_map_app.
    + destruct (save_results_cases nlp data w)
        as [[He _] | [[_ (para & _ & ->)] | [_ (e & _ & ->)]]]; [done | |].
      all: cbn [snd trace emitted]; unfold nlp_calls; rewrite !flat_map_app.
      all: cbn [flat_map app]; by rewrite ?app_nil_r.
    + intros para Hpara. rewrite (save_results_run nlp data w para) by done.
      split; [apply lookup_insert_eq |]. intros Hvalid.
      apply export_runs_Ok in Hpara as [-> _].
      rewrite paragraph_text_store, requests_text by done.
      split; [done |]. apply stored_text_id.
    + intros e He. by apply save_results_fails.
Qed.

Lemma input_stripping_witness :
  let data := request_of (py "  " ++ scenario_A_text ++ newline) ["PERSON"] in
  let out := save_results (fun _ => scenario_A_doc) data empty_world in
  let para := [ plain "Dracula was written by ";
                entity_run (span 23 34 "PERSON" "Bram Stoker" 2);
                plain "." ] in
  nlp_calls (trace out.2) = nlp_calls (trace empty_world) ++ [scenario_A_text]
  /\ files out.2 !! py "Results.docx" = Some [para]
  /\ paragraph_text para = scenario_A_text.
Proof.
  intros data out para.
  destruct (input_stripping (fun _ => scenario_A_doc) (fun _ _ => []) data
                            empty_world) as (_ & _ & _ & _ & Hrun).
  destruct Hrun as (_ & Hcalls & Hsaved & _).
  { apply (bool_decide_unpack _). vm_compute. exact I. }
  destruct (Hsaved para) as [Hfile Htext]; [vm_compute; reflexivity |].
  split; [exact Hcalls |]. split; [exact Hfile |].
  apply Htext.
  - apply (bool_decide_unpack _). vm_compute. exact I.
  - apply (bool_decide_unpack _). vm_compute. exact I.
Defined.

(** C10 as first stated fails in its last part: the runs of the document
    saved for a text with a carriage return inside do not spell the
    stripped text. *)
Lemma input_stripping_counterexample :
  let data := request_of (py " " ++ cr_text ++ py " ") ["CHARACTER"] in
  let text := strip (get_text data) in
  let out := save_results (fun _ => cr_doc) data empty_world in
  text = cr_text
  /\ valid_spans text (ents cr_doc)
  /\ exists para,
       files out.2 !! py "Results.docx" = Some [para]
       /\ paragraph_text para <> text.
Proof.
  split; [vm_compute; reflexivity |].
  split; [apply (bool_decide_unpack _); vm_compute; exact I |].
  eexists. split; [vm_compute; reflexivity |]. vm_compute. discriminate.
Qed.

(** ** More on the export loop *)

(** X1 (run count). A completed export holds at least one run for each
    selected entity and at most two, plus one for the remainder: the number
    of runs is linear in the number of selected entities, whatever the
    spans. *)
Theorem export_runs_count (text : str) (selected_entities : list str)
    (spans : list Span) (para : Paragraph) :
  let chosen := length (filter (selected selected_entities) spans) in
  export_runs text selected_entities spans = Ok para ->
  (chosen <= length para)%nat /\ (length para <= 2 * chosen + 1)%nat.
Proof.
  intros chosen [-> _]%export_runs_Ok. rewrite length_fmap.
  apply requests_count.
Qed.

Lemma export_runs_count_witness :
  (length (filter (selected [py "PERSON"]) (ents scenario_A_doc))
   <= length [ plain "Dracula was written by ";
               entity_run (span 23 34 "PERSON" "Bram Stoker" 2);
               plain "." ])%nat
  /\ (length [ plain "Dracula was written by ";
               entity_run (span 23 34 "PERSON" "Bram Stoker" 2);
               plain "." ]
      <= 2 * length (filter (selected [py "PERSON"]) (ents scenario_A_doc))
         + 1)%nat.
Proof.
  apply (export_runs_count scenario_A_text [py "PERSON"]
                           (ents scenario_A_doc)).
  vm_compute. reflexivity.
Defined.

(** X2 (re-filtering). Entities whose label is not selected have no effect
    at all: dropping them first and exporting with any label list that
    keeps the rest gives the same runs, or the same failure. *)
Theorem export_runs_refilter (text : str) (sel sel' : list str)
    (spans : list Span) :
  Forall (selected sel') (filter (selected sel) spans) ->
  export_runs text sel' (filter (selected sel) spans)
  = export_runs text sel spans.
Proof.
  intros Hall. by rewrite !export_runs_requests, requests_refilter.
Qed.

Lemma export_runs_refilter_witness :
  export_runs scenario_A_text [py "CHARACTER"; py "PERSON"]
              (filter (selected [py "PERSON"]) (ents scenario_A_doc))
  = export_runs scenario_A_text [py "PERSON"] (ents scenario_A_doc).
Proof.
  apply (export_runs_refilter scenario_A_text [py "PERSON"]
                              [py "CHARACTER"; py "PERSON"]
                              (ents scenario_A_doc)).
  apply (bool_decide_unpack _). vm_compute. exact I.
Defined.

(** X3 (nothing selected). When no entity carries a selected label, the
    export asks for the whole text in a single unstyled run: it holds no
    run for the empty text, fails with [ValueError] when the text holds a
    character python-docx refuses, and otherwise holds one run, which reads
    back the text with each carriage return as a newline. *)
Theorem export_runs_nothing_selected (text : str) (selected_entities : list str)
    (spans : list Span) :
  Forall (fun e => label_ e ∉ selected_entities) spans ->
  export_runs text selected_entities spans
  = if bool_decide (text = []) then Ok []
    else if forallb xml_compatible text then
      Ok [ {| run_text := stored_text text; bold := None;
              font_color_rgb := None |} ]
    else Raise ValueError.
Proof.
  intros Hnone.
  rewrite export_runs_requests, requests_nothing_selected by done.
  case_bool_decide; [by rewrite decide_True by constructor |].
  destruct (forallb xml_compatible text) eqn:Hall.
  - rewrite decide_True; [done |].
    apply Forall_singleton. by apply forallb_xml_compatible.
  - rewrite decide_False; [done |].
    rewrite Forall_singleton. intros Hx%forallb_xml_compatible.
    simpl in Hx. congruence.
Qed.

Lemma export_runs_nothing_selected_witness :
  export_runs cr_text [py "ORG"] (ents cr_doc)
  = if bool_decide (cr_text = []) then Ok []
    else if forallb xml_compatible cr_text then
      Ok [ {| run_text := stored_text cr_text; bold := None;
              font_color_rgb := None |} ]
    else Raise ValueError.
Proof.
  apply (export_runs_nothing_selected cr_text [py "ORG"] (ents cr_doc)).
  apply (bool_decide_unpack _). vm_compute. exact I.
Defined.

(** X4 (offsets). With valid spans, the run of a selected entity sits in a
    completed export where the entity is: the runs before it are those of
    [text[0:start_char]], its own text that of [text[start_char:end_char]],
    and the runs after it those of [text[end_char:]], each as python-docx
    reads it back. *)
Theorem entity_run_at_offset (text : str) (selected_entities : list str)
    (before after : list Span) (e : Span) (para : Paragraph) :
  valid_spans text (before ++ e :: after) ->
  label_ e ∈ selected_entities ->
  export_runs text selected_entities (before ++ e :: after) = Ok para ->
  exists pre post,
    para = pre ++ entity_run e :: post
    /\ paragraph_text pre = stored_text (slice text 0 (start_char e))
    /\ run_text (entity_run e)
       = stored_text (slice text (start_char e) (end_char e))
    /\ paragraph_text post = stored_text (slice_from text (end_char e)).
Proof.
  intros Hvalid Hsel [-> _]%export_runs_Ok.
  destruct (requests_at_offset text selected_entities before after e
              Hvalid Hsel) as (pre & post & -> & Hpre & He & Hpost).
  exists (store_run <$> pre), (store_run <$> post).
  rewrite fmap_app, fmap_cons, !paragraph_text_store, Hpre, Hpost.
  split; [done |]. split; [done |]. split; [| done].
  simpl. by rewrite He.
Qed.

Lemma entity_run_at_offset_witness :
  exists pre post,
    [ plain "Dracula was written by ";
      entity_run (span 23 34 "PERSON" "Bram Stoker" 2);
      plain "." ]
    = pre ++ entity_run (span 23 34 "PERSON" "Bram Stoker" 2) :: post
    /\ paragraph_text pre = stored_text (slice scenario_A_text 0 23)
    /\ run_text (entity_run (span 23 34 "PERSON" "Bram Stoker" 2))
       = stored_text (slice scenario_A_text 23 34)
    /\ paragraph_text post = stored_text (slice_from scenario_A_text 34).
Proof.
  apply (entity_run_at_offset scenario_A_text [py "PERSON"]
           [span 0 7 "CHARACTER" "Dracula" 1] []
           (span 23 34 "PERSON" "Bram Stoker" 2)).
  - apply (bool_decide_unpack _). vm_compute. exact I.
  - apply (bool_decide_unpack _). vm_compute. exact I.
  - vm_compute. reflexivity.
Defined.

(** ** More on [str.strip] *)

Lemma lstrip_fixed s :
  (forall c, head s = Some c -> isspace c = false) -> lstrip s = s.
Proof.
  destruct s as [| c s]; [done |]. intros H. simpl. by rewrite (H c).
Qed.

Lemma strip_fixed s :
  (forall c, head s = Some c -> isspace c = false) ->
  (forall c, last s = Some c -> isspace c = false) ->
  strip s = s.
Proof.
  intros Hh Hl. unfold strip, rstrip. rewrite (lstrip_fixed s) by done.
  rewrite lstrip_fixed; [apply reverse_involutive |].
  intros c. rewrite head_reverse. apply Hl.
Qed.

Lemma strip_idempotent s : strip (strip s) = strip s.
Proof. apply strip_fixed; [apply strip_head | apply strip_last]. Qed.

Lemma lstrip_whitespace_app ws s : whitespace ws -> lstrip (ws ++ s) = lstrip s.
Proof. induction 1 as [| c ws Hc _ IH]; simpl; [done |]. by rewrite Hc. Qed.

Lemma lstrip_app s t : lstrip s <> [] -> lstrip (s ++ t) = lstrip s ++ t.
Proof.
  induction s as [| c s IH]; simpl; [done |].
  destruct (isspace c); [exact IH | done].
Qed.

Lemma rstrip_app_whitespace s ws : whitespace ws -> rstrip (s ++ ws) = rstrip s.
Proof.
  intros Hws. unfold rstrip. rewrite reverse_app, lstrip_whitespace_app; [done |].
  by apply Forall_reverse.
Qed.

Lemma strip_app_whitespace s ws : whitespace ws -> strip (s ++ ws) = strip s.
Proof.
  intros Hws. destruct (decide (lstrip s = [])) as [Hs | Hs].
  - apply lstrip_nil_whitespace in Hs.
    rewrite (proj1 (strip_whitespace s)) by done.
    apply strip_whitespace. by apply Forall_app.
  - unfold strip. rewrite lstrip_app by done. by apply rstrip_app_whitespace.
Qed.

(** ** The extractors *)

Lemma pages_foldl pages : forall acc : str,
  foldl (fun text page => text ++ (page ++ newline)) acc pages
  = acc ++ concat (map (fun page => page ++ newline) pages).
Proof.
  induction pages as [| p pages IH]; intros acc; simpl.
  - by rewrite app_nil_r.
  - rewrite IH. by rewrite <- !app_assoc.
Qed.

Lemma join_newline parts :
  parts <> [] ->
  concat (map (fun page => page ++ newline) parts) = join newline parts ++ newline.
Proof.
  induction parts as [| p parts IH]; [done |]. intros _.
  destruct parts as [| q parts]; [simpl; by rewrite app_nil_r |].
  change (join newline (p :: q :: parts))
    with (p ++ newline ++ join newline (q :: parts)).
  change (concat (map (fun page => page ++ newline) (p :: q :: parts)))
    with ((p ++ newline)
          ++ concat (map (fun page => page ++ newline) (q :: parts))).
  rewrite IH by done. by rewrite <- !app_assoc.
Qed.

Lemma whitespace_newline : whitespace newline.
Proof. by repeat constructor. Qed.

(** The text of a PDF: the page texts joined by newlines, stripped. *)
Lemma pdf_text pages :
  strip (foldl (fun text page => text ++ (page ++ newline)) [] pages)
  = strip (join newline pages).
Proof.
  rewrite pages_foldl. simpl. destruct pages as [| p pages]; [done |].
  rewrite join_newline by done.
  apply strip_app_whitespace, whitespace_newline.
Qed.

Lemma extract_text_from_pdf_run fitz_page_texts (file_bytes : bytes) (w : world) :
  extract_text_from_pdf fitz_page_texts file_bytes w
  = (Ok (strip (join newline (fitz_page_texts file_bytes))),
     emitted w [EvFitzOpen file_bytes]).
Proof. unfold extract_text_from_pdf. by rewrite pdf_text. Qed.

Lemma extract_text_from_docx_run docx_paragraph_texts (file_bytes : bytes)
    (w : world) :
  extract_text_from_docx docx_paragraph_texts file_bytes w
  = (Ok (strip (join newline (docx_paragraph_texts file_bytes))),
     emitted w [EvDocxOpen file_bytes]).
Proof. done. Qed.

(** What [upload_file] does with a file it accepts. *)
Lemma upload_file_run fitz_page_texts docx_paragraph_texts lower
    (request : upload_request) (file : FileStorage) (w : world) :
  request_file request = Some file ->
  filename file <> [] ->
  endswith (lower (filename file)) (py ".pdf") = true
  \/ endswith (lower (filename file)) (py ".docx") = true ->
  let pdf := endswith (lower (filename file)) (py ".pdf") in
  upload_file fitz_page_texts docx_paragraph_texts lower request w
  = (Ok (JObj [(py "text",
                JStr (strip (join newline
                               ((if pdf then fitz_page_texts
                                 else docx_paragraph_texts) (content file)))))],
         200),
     emitted w [if pdf then EvFitzOpen (content file)
                else EvDocxOpen (content file)]).
Proof.
  intros Hfile Hname Hext pdf. unfold upload_file. rewrite Hfile.
  rewrite bool_decide_false by done. fold pdf.
  destruct pdf eqn:Hpdf; cbn [negb orb].
  - unfold bind. rewrite extract_text_from_pdf_run. reflexivity.
  - destruct Hext as [Hext | Hext]; [unfold pdf in *; congruence |]. rewrite Hext. cbn [negb orb].
    unfold bind. rewrite extract_text_from_docx_run. reflexivity.
Qed.

(** Every run of [upload_file]: a rejection that leaves the world alone, or
    one reader opened and the text answered. *)
Lemma upload_file_cases fitz_page_texts docx_paragraph_texts lower
    (request : upload_request) (w : world) :
  (exists msg,
      upload_file fitz_page_texts docx_paragraph_texts lower request w
      = (Ok (JObj [(py "error", JStr msg)], 400), w))
  \/ (exists parts ev,
        upload_file fitz_page_texts docx_paragraph_texts lower request w
        = (Ok (JObj [(py "text", JStr (strip (join newline parts)))], 200),
           emitted w [ev])
        /\ (exists b, ev = EvFitzOpen b \/ ev = EvDocxOpen b)).
Proof.
  destruct (request_file request) as [file |] eqn:Hfile.
  2:{ left. unfold upload_file. rewrite Hfile. by eexists. }
  destruct (decide (filename file = [])) as [Hname | Hname].
  { left. unfold upload_file. rewrite Hfile, bool_decide_true by done.
    by eexists. }
  destruct (endswith (lower (filename file)) (py ".pdf")) eqn:Hpdf.
  - right. rewrite (upload_file_run _ _ _ _ file) by auto. rewrite Hpdf.
    do 2 eexists. split; [done |]. eexists. by left.
  - destruct (endswith (lower (filename file)) (py ".docx")) eqn:Hdocx.
    + right. rewrite (upload_file_run _ _ _ _ file) by auto. rewrite Hpdf.
      do 2 eexists. split; [done |]. eexists. by right.
    + left. unfold upload_file.
      rewrite Hfile, bool_decide_false, Hpdf, Hdocx by done. by eexists.
Qed.

(** ** More on counters *)

Lemma occurrences_Permutation k l l' :
  l ≡ₚ l' -> occurrences k l = occurrences k l'.
Proof. intros H. unfold occurrences. by rewrite H. Qed.

Lemma dom_Counter l : dom (Counter l) = list_to_set l.
Proof.
  apply set_eq. intros k.
  rewrite elem_of_dom, lookup_Counter, elem_of_list_to_set,
    <- occurrences_pos.
  case_decide as Hn.
  - split; [by intros [? ?] | lia].
  - split; [lia | by eexists].
Qed.

(** One key for each distinct label. *)
Lemma size_Counter l : size (Counter l) = length (remove_dups l).
Proof.
  rewrite <- size_dom, dom_Counter.
  rewrite <- (size_list_to_set (C:=gset str) (remove_dups l))
    by apply NoDup_remove_dups.
  f_equal. apply set_eq. intros k.
  by rewrite !elem_of_list_to_set, elem_of_remove_dups.
Qed.

Lemma length_remove_dups_le (l : list str) :
  (length (remove_dups l) <= length l)%nat.
Proof.
  induction l as [| x l IH]; simpl; [done |].
  destruct (decide_rel elem_of x l); simpl; lia.
Qed.

(** ** More on the statistics *)

Lemma foldr_add_bounds lo hi (l : list Z) :
  Forall (fun x => lo <= x <= hi) l ->
  lo * Z.of_nat (length l) <= foldr Z.add 0 l <= hi * Z.of_nat (length l).
Proof.
  induction 1 as [| x l Hx _ IH]; simpl; lia.
Qed.

Lemma mean_bounds lo hi (l : list Z) :
  l <> [] -> Forall (fun x => lo <= x <= hi) l ->
  (inject_Z lo <= mean l)%Q /\ (mean l <= inject_Z hi)%Q.
Proof.
  intros Hne Hall. pose proof (foldr_add_bounds lo hi l Hall) as [Hlo Hhi].
  assert (0 < inject_Z (Z.of_nat (length l)))%Q as Hpos.
  { change 0%Q with (inject_Z 0). rewrite <- Zlt_Qlt.
    destruct l; [done | simpl; lia]. }
  unfold mean. split.
  - apply Qle_shift_div_l; [done |]. by rewrite <- inject_Z_mult, <- Zle_Qle.
  - apply Qle_shift_div_r; [done |]. by rewrite <- inject_Z_mult, <- Zle_Qle.
Qed.

Lemma density_bounds (ec tc : Z) (q : Q) :
  0 <= ec -> 0 < tc -> (q == inject_Z ec / inject_Z tc)%Q ->
  (0 <= q)%Q /\ (ec <= tc -> (q <= 1)%Q).
Proof.
  intros Hec Htc ->.
  assert (0 < inject_Z tc)%Q as Hpos.
  { change 0%Q with (inject_Z 0). by rewrite <- Zlt_Qlt. }
  split.
  - apply Qle_shift_div_l; [done |]. rewrite Qmult_0_l.
    change 0%Q with (inject_Z 0). by rewrite <- Zle_Qle.
  - intros Hle. apply Qle_shift_div_r; [done |]. rewrite Qmult_1_l.
    by rewrite <- Zle_Qle.
Qed.

(** X12 (density range). On a request [stats] accepts, [entity_density] is
    the integer 0 only when the document has no token; otherwise it is a
    non-negative number, at most 1 when there are no more entities than
    tokens. *)
Theorem entity_density_bounds nlp (data : body) (w : world) :
  let doc := nlp (strip (get_text data)) in
  strip (get_text data) <> [] ->
  exists d,
    field "entity_density" (stats nlp data w) = Some (JNum d)
    /\ match d with
       | Int z => z = 0 /\ doc_len doc = 0%nat
       | Float q =>
         (0 <= q)%Q
         /\ ((length (ents doc) <= doc_len doc)%nat -> (q <= 1)%Q)
       end.
Proof.
  intros doc Htext.
  destruct (stats_run nlp data w Htext) as (d & a & [Hd0 Hd] & _ & ->).
  fold doc in Hd0, Hd. exists d. split; [done |].
  destruct (decide (doc_len doc = 0%nat)) as [Hz | Hnz].
  - rewrite Hd0 by lia. done.
  - destruct Hd as (q & -> & Hq); [lia |].
    destruct (density_bounds (len (ents doc)) (Z.of_nat (doc_len doc)) q)
      as [H0 H1]; [unfold len; lia | lia | done |].
    split; [done |]. intros Hle. apply H1. unfold len. lia.
Qed.

Lemma entity_density_bounds_witness :
  exists d,
    field "entity_density"
          (stats (fun _ => scenario_D_doc) (request_of scenario_D_text [])
                 empty_world)
    = Some (JNum d)
    /\ match d with
       | Int z => z = 0 /\ doc_len scenario_D_doc = 0%nat
       | Float q =>
         (0 <= q)%Q
         /\ ((length (ents scenario_D_doc) <= doc_len scenario_D_doc)%nat ->
             (q <= 1)%Q)
       end.
Proof.
  apply (entity_density_bounds (fun _ => scenario_D_doc)
                               (request_of scenario_D_text []) empty_world).
  vm_compute. discriminate.
Defined.

(** X13 (average range). On a request [stats] accepts with at least one
    sentence, [avg_sentence_length] lies between any lower and upper bound
    of the sentence lengths. *)
Theorem avg_sentence_length_bounds nlp (data : body) (w : world) (lo hi : Z) :
  let doc := nlp (strip (get_text data)) in
  strip (get_text data) <> [] ->
  sents doc <> [] ->
  Forall (fun sent => lo <= Z.of_nat (span_len sent) <= hi) (sents doc) ->
  exists q,
    field "avg_sentence_length" (stats nlp data w) = Some (JNum (Float q))
    /\ (inject_Z lo <= q)%Q /\ (q <= inject_Z hi)%Q.
Proof.
  intros doc Htext Hsents Hall.
  destruct (stats_run nlp data w Htext) as (d & a & _ & [_ Ha] & ->).
  fold doc in Ha.
  destruct Ha as (q & -> & Hq); [by destruct (sents doc) |].
  exists q. split; [done |]. rewrite Hq. apply mean_bounds.
  - by destruct (sents doc).
  - by apply Forall_fmap.
Qed.

Lemma avg_sentence_length_bounds_witness :
  exists q,
    field "avg_sentence_length"
          (stats (fun _ => scenario_D_doc) (request_of scenario_D_text [])
                 empty_world)
    = Some (JNum (Float q))
    /\ (inject_Z 5 <= q)%Q /\ (q <= inject_Z 7)%Q.
Proof.
  apply (avg_sentence_length_bounds (fun _ => scenario_D_doc)
           (request_of scenario_D_text []) empty_world 5 7).
  - vm_compute. discriminate.
  - discriminate.
  - repeat constructor; simpl; lia.
Defined.

Lemma json_int_sum_counts (m : gmap str Z) :
  json_int_sum (map (fun kv => (kv.1, JNum (Int kv.2))) (map_to_list m))
  = total m.
Proof.
  unfold total, json_int_sum. rewrite map_fold_foldr.
  induction (map_to_list m) as [| [k v] l IH]; [done |].
  simpl in *. by rewrite IH.
Qed.

(** X14 (report consistency). On a request [stats] accepts, the status is
    200, and the answered fields agree with each other:
    [entity_distribution] is an object of distinct keys, each the label of
    some entity with a positive count, and its counts add up to
    [entity_count]; [named_entity_length_distribution] has [entity_count]
    entries and [sentence_lengths] one entry per sentence; no length or
    count is negative. *)
Theorem stats_report_consistent nlp (data : body) (w : world) :
  let doc := nlp (strip (get_text data)) in
  strip (get_text data) <> [] ->
  exists entity_count token_count sentence_lengths lengths distribution,
    status_of (stats nlp data w) = Some 200
    /\ field "entity_count" (stats nlp data w)
       = Some (JNum (Int entity_count))
    /\ field "token_count" (stats nlp data w) = Some (JNum (Int token_count))
    /\ field "sentence_lengths" (stats nlp data w)
       = Some (json_ints sentence_lengths)
    /\ field "named_entity_length_distribution" (stats nlp data w)
       = Some (json_ints lengths)
    /\ field "entity_distribution" (stats nlp data w)
       = Some (JObj distribution)
    /\ NoDup distribution.*1
    /\ json_int_sum distribution = entity_count
    /\ Forall (fun kv => exists n e,
                 kv.2 = JNum (Int n) /\ 0 < n
                 /\ e ∈ ents doc /\ label_ e = kv.1) distribution
    /\ len distribution <= entity_count
    /\ len lengths = entity_count
    /\ len sentence_lengths = len (sents doc)
    /\ 0 <= token_count
    /\ Forall (fun n => 0 <= n) sentence_lengths
    /\ Forall (fun n => 0 <= n) lengths.
Proof.
  intros doc Htext.
  destruct (stats_run nlp data w Htext) as (d & a & _ & _ & ->). fold doc.
  set (m := Counter (map label_ (ents doc))).
  do 5 eexists.
  do 6 (split; [reflexivity |]).
  split; [| split; [| split; [| split]]].
  - rewrite <- list_fmap_compose.
    change (NoDup ((map_to_list m).*1)). apply NoDup_fst_map_to_list.
  - rewrite json_int_sum_counts. unfold m, Counter.
    rewrite total_foldl_counter_add. unfold total, len.
    rewrite map_fold_empty, length_map. lia.
  - apply Forall_fmap, Forall_forall. intros [k v] Hkv. simpl.
    apply elem_of_map_to_list in Hkv. unfold m in Hkv.
    rewrite lookup_Counter in Hkv. case_decide as Hn; [done |].
    injection Hkv as <-.
    assert (k ∈ map label_ (ents doc)) as Hk by (apply occurrences_pos; lia).
    apply list_elem_of_fmap in Hk as (e & -> & He).
    exists (Z.of_nat (occurrences (label_ e) (map label_ (ents doc)))), e.
    repeat split; [lia | done].
  - unfold len. rewrite length_map, length_map_to_list.
    unfold m. rewrite size_Counter.
    pose proof (length_remove_dups_le (map label_ (ents doc))) as Hle.
    rewrite length_map in Hle. lia.
  - repeat split.
    + unfold len. by rewrite length_map.
    + unfold len. by rewrite length_map.
    + lia.
    + apply Forall_fmap, Forall_true. simpl. lia.
    + apply Forall_fmap, Forall_true. simpl. lia.
Qed.

Lemma stats_report_consistent_witness :
  let out := stats (fun _ => scenario_D_doc) (request_of scenario_D_text [])
                   empty_world in
  exists entity_count token_count sentence_lengths lengths distribution,
    status_of out = Some 200
    /\ field "entity_count" out = Some (JNum (Int entity_count))
    /\ field "token_count" out = Some (JNum (Int token_count))
    /\ field "sentence_lengths" out = Some (json_ints sentence_lengths)
    /\ field "named_entity_length_distribution" out
       = Some (json_ints lengths)
    /\ field "entity_distribution" out = Some (JObj distribution)
    /\ NoDup distribution.*1
    /\ json_int_sum distribution = entity_count
    /\ Forall (fun kv => exists n e,
                 kv.2 = JNum (Int n) /\ 0 < n
                 /\ e ∈ ents scenario_D_doc /\ label_ e = kv.1) distribution
    /\ len distribution <= entity_count
    /\ len lengths = entity_count
    /\ len sentence_lengths = len (sents scenario_D_doc)
    /\ 0 <= token_count
    /\ Forall (fun n => 0 <= n) sentence_lengths
    /\ Forall (fun n => 0 <= n) lengths.
Proof.
  intros out.
  apply (stats_report_consistent (fun _ => scenario_D_doc)
           (request_of scenario_D_text []) empty_world).
  vm_compute. discriminate.
Defined.

(** X15 (distribution ignores order). Listing the same labels in another
    order gives the same counter, and the counter has one key for each
    distinct label. *)
Theorem entity_distribution_order_free (labels labels' : list str) :
  labels ≡ₚ labels' ->
  Counter labels = Counter labels'
  /\ size (Counter labels) = length (remove_dups labels).
Proof.
  intros Hperm. split.
  - apply map_eq. intros k.
    by rewrite !lookup_Counter, (occurrences_Permutation k _ _ Hperm).
  - apply size_Counter.
Qed.

Lemma entity_distribution_order_free_witness :
  Counter [py "ORG"; py "ORG"; py "PLACE"]
  = Counter [py "PLACE"; py "ORG"; py "ORG"]
  /\ size (Counter [py "ORG"; py "ORG"; py "PLACE"])
     = length (remove_dups [py "ORG"; py "ORG"; py "PLACE"]).
Proof.
  apply (entity_distribution_order_free [py "ORG"; py "ORG"; py "PLACE"]
                                        [py "PLACE"; py "ORG"; py "ORG"]).
  apply (bool_decide_unpack _). vm_compute. exact I.
Defined.

(** ** More on the handlers *)

Lemma lookup_colors_of (labels : list str) (l : str) :
  colors_of labels !! l
  = if decide (l ∈ labels) then Some (dict_get COLORS l (py "gray")) else None.
Proof.
  unfold colors_of.
  assert (forall m : gmap str str,
            foldl (fun d ent => <[ent := dict_get COLORS ent (py "gray")]> d)
                  m labels !! l
            = if decide (l ∈ labels)
              then Some (dict_get COLORS l (py "gray")) else m !! l) as H.
  { induction labels as [| x labels IH]; intros m.
    - by rewrite decide_False by apply not_elem_of_nil.
    - cbn [foldl]. rewrite IH.
      destruct (decide (l ∈ labels)) as [Hin | Hin].
      + by rewrite decide_True by (by right).
      + destruct (decide (x = l)) as [-> | Hne].
        * rewrite decide_True by left. apply lookup_insert_eq.
        * rewrite decide_False by (by intros [? | ?]%elem_of_cons).
          by apply lookup_insert_ne. }
  rewrite H. by case_decide.
Qed.

Lemma strip_with_text (data : body) :
  strip (get_text (with_text data (strip (get_text data))))
  = strip (get_text data).
Proof. apply strip_idempotent. Qed.

(** Every run of [stats]. *)
Lemma stats_cases nlp (data : body) (w : world) :
  (strip (get_text data) = []
   /\ stats nlp data w
      = (Ok (JObj [(py "error", JStr (py "No text provided"))], 400), w))
  \/ (strip (get_text data) <> []
      /\ exists fields,
          stats nlp data w
          = (Ok (JObj ((py "entity_count", fields.1) :: fields.2), 200),
             emitted w [EvNlp (strip (get_text data))])
          /\ assoc (py "error") fields.2 = None).
Proof.
  destruct (decide (strip (get_text data) = [])) as [He | Hne].
  - left. split; [done |]. by apply stats_rejects.
  - right. split; [done |].
    destruct (stats_run nlp data w Hne) as (d & a & _ & _ & ->).
    eexists (_, _). split; [reflexivity |]. reflexivity.
Qed.

(** X7 (preview options). [filter_entities] never rejects a request, not
    even an empty text: it calls the pipeline on the stripped text, then
    the renderer, and answers its markup with status 200. The options name
    the selected labels and give each of them, and no other label, its
    colour of [COLORS], or [gray] for a label [COLORS] does not know. *)
Theorem filter_entities_options nlp render (data : body) (w : world) :
  let text := strip (get_text data) in
  let labels := get_selected_entities data in
  exists opts,
    filter_entities nlp render data w
    = (Ok (JObj [(py "html", JStr (render (nlp text) opts))], 200),
       {| files := files w;
          trace := trace w ++ [EvNlp text; EvRender (nlp text) opts] |})
    /\ opt_ents opts = labels
    /\ forall l,
         opt_colors opts !! l
         = if decide (l ∈ labels)
           then Some (default (py "gray") (COLORS !! l))
           else None.
Proof.
  intros text labels. eexists. split; [| split].
  - rewrite filter_entities_run. by rewrite <- app_assoc.
  - done.
  - intros l. apply lookup_colors_of.
Qed.

(** X8 (upload answers). [upload_file] never fails on an unbound
    [extracted_text]: the variable is bound whenever it is read. Whatever
    it answers is an error with status 400, no text and an untouched
    world, or a text with status 200 and no error. *)
Theorem upload_file_answers fitz_page_texts docx_paragraph_texts lower
    (request : upload_request) (w : world) :
  let out := upload_file fitz_page_texts docx_paragraph_texts lower request w in
  out.1 <> Raise UnboundLocalError
  /\ forall status,
       status_of out = Some status ->
       (status = 400 /\ is_Some (field "error" out)
        /\ field "text" out = None /\ out.2 = w)
       \/ (status = 200 /\ field "error" out = None
           /\ is_Some (field "text" out)).
Proof.
  intros out. subst out.
  destruct (upload_file_cases fitz_page_texts docx_paragraph_texts lower
              request w) as [(msg & ->) | (parts & ev & -> & _)].
  - split; [done |]. intros status [= <-]. left.
    split; [done |]. split; [by eexists |]. by split.
  - split; [done |]. intros status [= <-]. right.
    split; [done |]. split; [done |]. by eexists.
Qed.

(** X9 (upload dispatch). A file with a name whose lowercased form ends in
    [.pdf] or [.docx] is read by the one matching reader, once, on the
    bytes of the file. Both extractors answer the pieces they read (pages
    or paragraphs) joined by newlines and stripped. *)
Theorem upload_file_accepts fitz_page_texts docx_paragraph_texts lower
    (request : upload_request) (file : FileStorage) (w : world) :
  let name := lower (filename file) in
  request_file request = Some file ->
  filename file <> [] ->
  endswith name (py ".pdf") = true \/ endswith name (py ".docx") = true ->
  exists parts ev,
    upload_file fitz_page_texts docx_paragraph_texts lower request w
    = (Ok (JObj [(py "text", JStr (strip (join newline parts)))], 200),
       {| files := files w; trace := trace w ++ [ev] |})
    /\ (endswith name (py ".pdf") = true ->
        parts = fitz_page_texts (content file)
        /\ ev = EvFitzOpen (content file))
    /\ (endswith name (py ".pdf") = false ->
        parts = docx_paragraph_texts (content file)
        /\ ev = EvDocxOpen (content file)).
Proof.
  intros name Hfile Hname Hext.
  rewrite (upload_file_run _ _ _ _ file) by done. fold name.
  do 2 eexists. split; [reflexivity |].
  split; intros ->; done.
Qed.

Lemma upload_file_accepts_witness :
  exists parts ev,
    upload_file two_pieces no_pages ascii_lower report_pdf empty_world
    = (Ok (JObj [(py "text", JStr (strip (join newline parts)))], 200),
       {| files := files empty_world; trace := trace empty_world ++ [ev] |})
    /\ (endswith (ascii_lower (py "Report.PDF")) (py ".pdf") = true ->
        parts = two_pieces [] /\ ev = EvFitzOpen [])
    /\ (endswith (ascii_lower (py "Report.PDF")) (py ".pdf") = false ->
        parts = no_pages [] /\ ev = EvDocxOpen []).
Proof.
  apply (upload_file_accepts two_pieces no_pages ascii_lower report_pdf
           {| filename := py "Report.PDF"; content := [] |} empty_world).
  - reflexivity.
  - vm_compute. discriminate.
  - left. vm_compute. reflexivity.
Defined.

(** X10 (upload, then analyse). A text answered by [upload_file] neither
    starts nor ends with whitespace, so [strip] leaves it as it is: sent
    back to [stats] or [save_results], it reaches the pipeline unchanged. *)
Theorem upload_text_is_stripped fitz_page_texts docx_paragraph_texts lower nlp
    (request : upload_request) (w : world) (t : str) :
  let out := upload_file fitz_page_texts docx_paragraph_texts lower request w in
  field "text" out = Some (JStr t) ->
  strip t = t
  /\ (forall c, head t = Some c \/ last t = Some c -> isspace c = false)
  /\ (t <> [] ->
      forall data,
        nlp_calls (trace (stats nlp (with_text data t) out.2).2)
        = nlp_calls (trace out.2) ++ [t]
        /\ nlp_calls (trace (save_results nlp (with_text data t) out.2).2)
           = nlp_calls (trace out.2) ++ [t]).
Proof.
  intros out. subst out.
  destruct (upload_file_cases fitz_page_texts docx_paragraph_texts lower
              request w) as [(msg & ->) | (parts & ev & -> & _)]; [done |].
  intros [= <-]. set (t := strip (join newline parts)).
  assert (strip t = t) as Hfix by apply strip_idempotent.
  split; [done |]. split.
  { intros c [Hc | Hc]; [by apply (strip_head (join newline parts))
                        | by apply (strip_last (join newline parts))]. }
  intros Hne data. cbn [snd].
  assert (strip (get_text (with_text data t)) = t) as Ht by exact Hfix.
  assert (strip (get_text (with_text data t)) <> []) as Hne' by by rewrite Ht.
  destruct (stats_run nlp (with_text data t) (emitted w [ev]) Hne')
    as (d & a & _ & _ & ->).
  destruct (save_results_cases nlp (with_text data t) (emitted w [ev]))
    as [[He _] | [[_ (para & _ & ->)] | [_ (e & _ & ->)]]]; [done | |].
  all: rewrite Ht; cbn [snd trace emitted].
  all: unfold nlp_calls; rewrite !flat_map_app; cbn [flat_map app].
  all: by rewrite !app_nil_r.
Qed.

Lemma upload_text_is_stripped_witness :
  let out := upload_file two_pieces no_pages ascii_lower report_pdf
                         empty_world in
  let t := py "Dracula was written" ++ newline ++ py "by Bram Stoker." in
  strip t = t
  /\ (forall c, head t = Some c \/ last t = Some c -> isspace c = false)
  /\ (t <> [] ->
      forall data,
        nlp_calls (trace (stats (fun _ => scenario_A_doc)
                                (with_text data t) out.2).2)
        = nlp_calls (trace out.2) ++ [t]
        /\ nlp_calls (trace (save_results (fun _ => scenario_A_doc)
                                          (with_text data t) out.2).2)
           = nlp_calls (trace out.2) ++ [t]).
Proof.
  intros out t.
  apply (upload_text_is_stripped two_pieces no_pages ascii_lower
           (fun _ => scenario_A_doc) report_pdf empty_world t).
  vm_compute. reflexivity.
Defined.

(** X11 (upload frame). [upload_file] never calls the pipeline, never saves
    a document, leaves every file alone and opens at most one reader. *)
Theorem upload_file_frame fitz_page_texts docx_paragraph_texts lower
    (request : upload_request) (w : world) :
  let w' :=
    (upload_file fitz_page_texts docx_paragraph_texts lower request w).2 in
  files w' = files w
  /\ nlp_calls (trace w') = nlp_calls (trace w)
  /\ saves (trace w') = saves (trace w)
  /\ exists opened,
       reader_calls (trace w') = reader_calls (trace w) ++ opened
       /\ (length opened <= 1)%nat.
Proof.
  intros w'. subst w'.
  destruct (upload_file_cases fitz_page_texts docx_paragraph_texts lower
              request w) as [(msg & ->) | (parts & ev & -> & b & Hev)].
  - cbn [snd]. do 3 (split; [done |]). exists [].
    split; [by rewrite app_nil_r | simpl; lia].
  - cbn [snd emitted files trace].
    unfold nlp_calls, saves, reader_calls. rewrite !flat_map_app.
    destruct Hev as [-> | ->]; cbn [flat_map app]; rewrite ?app_nil_r;
      (do 3 (split; [done |]); eexists; split; [reflexivity | simpl; lia]).
Qed.

(** X5 (last export wins). After two calls of [save_results], the second
    of which completes its export, the files are those the second call
    alone would leave: its document replaces the first one under
    [Results.docx]. A second call that is rejected changes nothing, and
    one that python-docx makes fail leaves the files of the first. *)
Theorem save_last_writer_wins nlp (first second : body) (w : world) :
  let w1 := (save_results nlp first w).2 in
  let w2 := (save_results nlp second w1).2 in
  let text := strip (get_text second) in
  let runs :=
    export_runs text (get_selected_entities second) (ents (nlp text)) in
  (forall para,
     text <> [] -> runs = Ok para ->
     files w2 = files (save_results nlp second w).2
     /\ files w2 !! py "Results.docx" = Some [para])
  /\ (text = [] -> w2 = w1)
  /\ (forall e,
        text <> [] -> runs = Raise e ->
        files w2 = files w1 /\ saves (trace w2) = saves (trace w1)).
Proof.
  intros w1 w2 text runs. subst w1 w2. split; [| split].
  - intros para Hne Hruns.
    rewrite !(save_results_run nlp second _ para) by done. simpl.
    split; [| apply lookup_insert_eq].
    destruct (save_results_cases nlp first w)
      as [[_ ->] | [[_ (doc & _ & ->)] | [_ (e & _ & ->)]]]; [done | | done].
    simpl. apply insert_insert_eq.
  - intros He. by rewrite (save_results_rejects nlp second).
  - intros e Hne Hruns. rewrite (save_results_fails nlp second _ e) by done.
    cbn [snd files trace emitted]. split; [done |].
    unfold saves. rewrite flat_map_app. simpl. by rewrite app_nil_r.
Qed.

Lemma save_last_writer_wins_witness :
  let first := request_of scenario_A_text ["PERSON"] in
  let second := request_of scenario_A_text ["CHARACTER"] in
  let w1 := (save_results (fun _ => scenario_A_doc) first empty_world).2 in
  let w2 := (save_results (fun _ => scenario_A_doc) second w1).2 in
  let para := [ entity_run (span 0 7 "CHARACTER" "Dracula" 1);
                plain " was written by Bram Stoker." ] in
  files w2
  = files (save_results (fun _ => scenario_A_doc) second empty_world).2
  /\ files w2 !! py "Results.docx" = Some [para].
Proof.
  intros first second w1 w2 para.
  apply (proj1 (save_last_writer_wins (fun _ => scenario_A_doc) first second
                                      empty_world) para).
  - vm_compute. discriminate.
  - vm_compute. reflexivity.
Defined.

(** X6 (stripping is idempotent). Sending the stripped text instead of the
    submitted one changes nothing: answers and effects of
    [filter_entities], [save_results] and [stats] are the same. *)
Theorem handlers_on_stripped_text nlp render (data : body) (w : world) :
  let stripped := with_text data (strip (get_text data)) in
  filter_entities nlp render stripped w = filter_entities nlp render data w
  /\ save_results nlp stripped w = save_results nlp data w
  /\ stats nlp stripped w = stats nlp data w.
Proof.
  intros stripped.
  pose proof (strip_with_text data) as Hs. fold stripped in Hs.
  assert (get_selected_entities stripped = get_selected_entities data)
    as Hsel by done.
  split; [| split].
  - rewrite !filter_entities_run. by rewrite Hs, Hsel.
  - unfold save_results. by rewrite Hs, Hsel.
  - unfold stats. by rewrite Hs.
Qed.

(** X16 (statistics frame). [stats] never saves a document and leaves every
    file alone; it calls the pipeline at most once, on the stripped text;
    and its answer does not depend on [selected_entities]. *)
Theorem stats_frame nlp (data : body) (w : world) :
  let w' := (stats nlp data w).2 in
  files w' = files w
  /\ saves (trace w') = saves (trace w)
  /\ (exists calls,
        nlp_calls (trace w') = nlp_calls (trace w) ++ calls
        /\ (calls = [] \/ calls = [strip (get_text data)]))
  /\ forall labels,
       stats nlp (with_selected_entities data labels) w = stats nlp data w.
Proof.
  intros w'. subst w'. split; [| split; [| split]]; [| | | done].
  - destruct (stats_cases nlp data w) as [[_ ->] | [_ (f & -> & _)]]; done.
  - destruct (stats_cases nlp data w) as [[_ ->] | [_ (f & -> & _)]]; [done |].
    simpl. unfold saves. rewrite flat_map_app. simpl. by rewrite app_nil_r.
  - destruct (stats_cases nlp data w) as [[_ ->] | [_ (f & -> & _)]].
    + exists []. rewrite app_nil_r. split; [done | by left].
    + eexists. simpl. unfold nlp_calls. rewrite flat_map_app. simpl.
      split; [reflexivity | by right].
Qed.

(** X17 (status and error go together). Whatever [save_results], [stats]
    and [upload_file] answer, it is status 400 with an [error] key or
    status 200 without one, and [filter_entities] answers nothing but 200.
    [save_results] and [stats] answer 400 exactly for a text of whitespace
    only. *)
Theorem answers_well_formed nlp render fitz_page_texts docx_paragraph_texts
    lower (data : body) (request : upload_request) (w : world) :
  well_formed_answer (save_results nlp data w)
  /\ well_formed_answer (stats nlp data w)
  /\ well_formed_answer
       (upload_file fitz_page_texts docx_paragraph_texts lower request w)
  /\ (forall status,
        status_of (filter_entities nlp render data w) = Some status ->
        status = 200)
  /\ (status_of (save_results nlp data w) = Some 400
      <-> whitespace (get_text data))
  /\ (status_of (stats nlp data w) = Some 400
      <-> whitespace (get_text data)).
Proof.
  unfold well_formed_answer. rewrite !strip_whitespace.
  split; [| split; [| split; [| split; [| split]]]].
  - destruct (save_results_cases nlp data w)
      as [[_ ->] | [[_ (para & _ & ->)] | [_ (e & _ & ->)]]];
      intros status [= <-]; [left | right]; (split; [done |]);
      [by eexists | done].
  - destruct (stats_cases nlp data w) as [[_ ->] | [_ (f & -> & Hf)]];
      intros status [= <-]; [left | right]; (split; [done |]);
      [by eexists | exact Hf].
  - destruct (upload_file_cases fitz_page_texts docx_paragraph_texts lower
                request w) as [(msg & ->) | (parts & ev & -> & _)];
      intros status [= <-]; [left | right]; (split; [done |]);
      [by eexists | done].
  - rewrite filter_entities_run. by intros status [= <-].
  - destruct (save_results_cases nlp data w)
      as [[He ->] | [[Hne (para & _ & ->)] | [Hne (e & _ & ->)]]];
      split; try done.
  - destruct (stats_cases nlp data w) as [[He ->] | [Hne (f & -> & Hf)]];
      split; try done.
Qed.

(** ** The start page: properties *)

#[global] Instance str_lexle_total : Total str_lexle.
Proof.
  intros a. unfold str_lexle.
  induction a as [| x a IH]; intros [| y b]; simpl; auto.
  destruct (N.ltb_spec x y), (N.ltb_spec y x); auto; lia.
Qed.

#[global] Instance str_lexle_trans : Transitive str_lexle.
Proof.
  intros a. unfold str_lexle.
  induction a as [| x a IH]; intros [| y b] [| z c]; simpl; try done.
  destruct (N.ltb_spec x y), (N.ltb_spec y x), (N.ltb_spec y z),
    (N.ltb_spec z y), (N.ltb_spec x z), (N.ltb_spec z x);
    try done; try lia.
  apply IH.
Qed.

(** X19 (model labels). [MODEL_ENTITIES] lists the labels of the model,
    each as often as the model does, in ascending order; the order is
    antisymmetric, so the list is determined by the labels. *)
Theorem model_entities_sorted (ner_labels : list str) :
  StronglySorted str_lexle (MODEL_ENTITIES ner_labels)
  /\ MODEL_ENTITIES ner_labels ≡ₚ ner_labels
  /\ (forall a b, str_lexle a b -> str_lexle b a -> a = b).
Proof.
  split; [apply StronglySorted_merge_sort; apply _ |].
  split; [apply merge_sort_Permutation |].
  unfold str_lexle. intros a.
  induction a as [| x a IH]; intros [| y b]; simpl; try done.
  destruct (N.ltb_spec x y), (N.ltb_spec y x); try done; try lia.
  intros Hab Hba. f_equal; [lia | by apply IH].
Qed.

(** X18 (start page). [index] renders the template with the sorted model
    labels and the markup [filter_entities] answers for the empty text
    with every model label selected, and has the same effects: one call of
    the pipeline on the empty text, no file touched. *)
Theorem index_page nlp render (ner_labels : list str) render_template
    (w : world) :
  let entity_types := MODEL_ENTITIES ner_labels in
  let request := {| body_text := Some [];
                    body_selected_entities := Some entity_types |} in
  let preview := filter_entities nlp render request w in
  exists html,
    field "html" preview = Some (JStr html)
    /\ index nlp render ner_labels render_template w
       = (Ok (render_template entity_types html), preview.2)
    /\ nlp_calls (trace preview.2) = nlp_calls (trace w) ++ [[]]
    /\ files preview.2 = files w.
Proof.
  intros entity_types request preview. subst preview.
  rewrite filter_entities_run. eexists. split; [reflexivity |].
  split; [reflexivity |]. split; [| done].
  cbn [snd trace]. unfold nlp_calls. rewrite !flat_map_app. simpl.
  by rewrite app_nil_r.
Qed.

(** ** The scenarios, run *)

Example slice_negative_bounds :
  slice (py "abcdef") (-3) 100 = py "def"
  /\ slice (py "abcdef") 4 2 = []
  /\ slice_from (py "abcdef") (-2) = py "ef".
Proof. by vm_compute. Qed.

Example strip_unicode_whitespace :
  strip (py "  a b " ++ [10%N; 160%N; 8195%N]) = py "a b".
Proof. by vm_compute. Qed.

(** Scenario A: only [PERSON] is selected. *)
Example scenario_A :
  export_runs scenario_A_text [py "PERSON"] (ents scenario_A_doc)
  = Ok [ plain "Dracula was written by ";
         {| run_text := py "Bram Stoker"; bold := Some true;
            font_color_rgb := Some (RGB 50 205 50) |};
         plain "." ].
Proof. by vm_compute. Qed.

(** Scenario B: nothing is selected. *)
Example scenario_B :
  export_runs scenario_A_text [] (ents scenario_A_doc)
  = Ok [ plain "Dracula was written by Bram Stoker." ].
Proof. by vm_compute. Qed.

(** Scenario C: the empty text gives no run, and [stats] rejects it. *)
Example scenario_C :
  export_runs [] [py "PERSON"] [] = Ok []
  /\ field "error" (stats (fun _ => blank_doc) (request_of [] []) empty_world)
     = Some (JStr (py "No text provided"))
  /\ field "entity_count"
            (stats (fun _ => blank_doc) (request_of [] []) empty_world)
     = None.
Proof. by vm_compute. Qed.

(** Scenario D: three entities, two sentences of 5 and 7 tokens. *)
Example scenario_D :
  let out := stats (fun _ => scenario_D_doc) (request_of scenario_D_text [])
                   empty_world in
  field "avg_sentence_length" out = Some (JNum (Float 6))
  /\ field "entity_density" out = Some (JNum (Float (1 # 4)))
  /\ Counter (map label_ (ents scenario_D_doc)) !! py "ORG" = Some 2
  /\ Counter (map label_ (ents scenario_D_doc)) !! py "PLACE" = Some 1
  /\ Counter (map label_ (ents scenario_D_doc)) !! py "PERSON" = None.
Proof. by vm_compute. Qed.

(** A pipeline without tokens and sentences: both guards answer 0. *)
Example zero_guards :
  let out := stats (fun _ => blank_doc) (request_of scenario_D_text [])
                   empty_world in
  field "entity_density" out = Some (JNum (Int 0))
  /\ field "avg_sentence_length" out = Some (JNum (Int 0)).
Proof. by vm_compute. Qed.

(** Scenario E: [report.txt] is refused; [Report.PDF] is read as a PDF. *)
Example scenario_E :
  upload_file no_pages no_pages ascii_lower
    {| request_file := Some {| filename := py "report.txt"; content := [] |} |}
    empty_world
  = (Ok (JObj [(py "error",
                JStr (py "Invalid file format. Please upload a PDF or DOCX."))],
         400),
     empty_world)
  /\ trace (upload_file no_pages no_pages ascii_lower
              {| request_file := Some {| filename := py "Report.PDF";
                                         content := [] |} |}
              empty_world).2
     = [EvFitzOpen []].
Proof. by vm_compute. Qed.

(** Overlapping spans are outside the contract: the text is not spelt. *)
Example overlapping_spans :
  exists para,
    export_runs (py "abcdef") [py "X"]
                [span 0 4 "X" "abcd" 1; span 2 6 "X" "cdef" 1]
    = Ok para
    /\ paragraph_text para = py "abcdcdef".
Proof. eexists. by vm_compute. Qed.

(** A carriage return is read back as a newline; a control character makes
    [save_results] fail after the pipeline was called, with nothing saved. *)
Example carriage_return_and_control_character :
  (exists para,
      export_runs cr_text [] [] = Ok para
      /\ paragraph_text para = py "Dracula" ++ [10%N] ++ py "was here")
  /\ save_results (fun _ => blank_doc) (request_of bell_text []) empty_world
     = (Raise ValueError, emitted empty_world [EvNlp bell_text]).
Proof. split; [eexists |]; by vm_compute. Qed.
